(** * Geospatial dashboard: classifier, drawing protocol, polygon store
      and recompute coordinator

    A shallow embedding of [src/app/page.tsx], [src/components/InteractiveMap.tsx]
    and the value row of [src/components/DataSourcePanel.tsx].

    Conventions.
    - A JavaScript [number] is a rational, or one of NaN, -Infinity, +Infinity:
      comparisons, and so the classifier, are exact on it. Where a property
      speaks of the value an addition or a division yields, the computation
      is modelled a second time on binary64 numbers ([Module Double]).
    - An expression that can raise is a [completion]: [Normal v] or [Throw e].
    - React state is a record; every handler is one transition on it, run on
      the state of the latest render.
    - An awaited fetch is a pending task in the state; it is resumed by a
      separate [resolve] transition, in any order. *)

From Stdlib Require Import List String Bool Arith ZArith QArith Lia.
From Stdlib Require Import DecimalString DecimalPos DecimalZ Lqa.
From Stdlib Require Floats.
Import ListNotations.

#[local] Close Scope Q_scope.
#[local] Open Scope string_scope.
#[local] Open Scope list_scope.

(** ** JavaScript values used by the program *)

Inductive number : Type :=
| NaN
| NegInf
| Fin (q : Q)
| PosInf.

(** [a < b] on numbers: false as soon as one side is NaN. *)
Definition num_lt (a b : number) : bool :=
  match a, b with
  | NaN, _ | _, NaN => false
  | _, NegInf => false
  | NegInf, _ => true
  | PosInf, _ => false
  | Fin _, PosInf => true
  | Fin x, Fin y => negb (Qle_bool y x)
  end.

(** [a >= b] on numbers: false as soon as one side is NaN. *)
Definition num_ge (a b : number) : bool :=
  match a, b with
  | NaN, _ | _, NaN => false
  | PosInf, _ => true
  | _, NegInf => true
  | NegInf, _ => false
  | Fin _, PosInf => false
  | Fin x, Fin y => Qle_bool y x
  end.

(** [Math.min] and [Math.max] of two numbers. *)
Definition Math_min (a b : number) : number :=
  match a, b with
  | NaN, _ | _, NaN => NaN
  | _, _ => if num_lt b a then b else a
  end.

Definition Math_max (a b : number) : number :=
  match a, b with
  | NaN, _ | _, NaN => NaN
  | _, _ => if num_lt a b then b else a
  end.

(** [sum / n] where [sum] is finite and [n] is an array length. *)
Definition div_by_length (sum : Q) (n : nat) : number :=
  match n with
  | O => if Qeq_bool sum 0 then NaN
         else if Qle_bool 0 sum then PosInf else NegInf
  | S _ => Fin (sum / inject_Z (Z.of_nat n))
  end.

(** What a fetch hands back, and what a polygon's optional [value] holds. *)
Inductive maybe_number : Type :=
| undefined
| null
| num (v : number).

(** Numeric reading of a value inside a comparison. *)
Definition to_number (v : maybe_number) : number :=
  match v with
  | undefined => NaN
  | null => Fin 0
  | num n => n
  end.

Inductive error : Type :=
| ReferenceError (name : string)
| TypeError
| SyntaxError
| Error (message : string).

Inductive completion (A : Type) : Type :=
| Normal (v : A)
| Throw (e : error).

Arguments Normal {A} v.
Arguments Throw {A} e.

Definition bind {A B} (c : completion A) (k : A -> completion B) : completion B :=
  match c with
  | Normal v => k v
  | Throw e => Throw e
  end.

Notation "x <- c ;; k" := (bind c (fun x => k))
  (at level 61, c at next level, right associativity).

(** ** Data model of [page.tsx] *)

Module ColorRule.
Record t : Type := mk { min : number; max : number; color : string }.
End ColorRule.

Module DataSource.
Record t : Type := mk {
  id : string;
  name : string;
  unit : string;
  colorRules : list ColorRule.t
}.
End DataSource.

Definition Date : Type := Z.

Module TimeRange.
Record t : Type := mk { start : Date; end_ : Date }.
End TimeRange.

Definition coord : Type := (Q * Q)%type.

Module Polygon.
Record t : Type := mk {
  id : string;
  coordinates : list coord;
  color : string;
  value : maybe_number;
  dataSource : string
}.
End Polygon.

(** ** The catalog and the classifier *)

Definition rule (lo hi : Q) (c : string) : ColorRule.t :=
  ColorRule.mk (Fin lo) (Fin hi) c.

Definition temperature : DataSource.t :=
  DataSource.mk "temperature_2m" "Temperature (2m)" "Â°C"
    [ rule (-20) 0 "#3B82F6"; rule 0 10 "#06B6D4"; rule 10 20 "#10B981";
      rule 20 30 "#F59E0B"; rule 30 50 "#EF4444" ].

Definition humidity : DataSource.t :=
  DataSource.mk "relative_humidity_2m" "Humidity (2m)" "%"
    [ rule 0 20 "#DC2626"; rule 20 40 "#F59E0B"; rule 40 60 "#10B981";
      rule 60 80 "#06B6D4"; rule 80 100 "#3B82F6" ].

Definition precipitation : DataSource.t :=
  DataSource.mk "precipitation" "Precipitation" "mm"
    [ rule 0 (1 # 10) "#F3F4F6"; rule (1 # 10) 1 "#06B6D4"; rule 1 5 "#3B82F6";
      rule 5 15 "#1D4ED8"; rule 15 50 "#1E1B4B" ].

Definition wind_speed : DataSource.t :=
  DataSource.mk "wind_speed_10m" "Wind Speed (10m)" "km/h"
    [ rule 0 5 "#F3F4F6"; rule 5 15 "#10B981"; rule 15 30 "#F59E0B";
      rule 30 50 "#EF4444"; rule 50 100 "#7C2D12" ].

Definition dataSources : list DataSource.t :=
  [ temperature; humidity; precipitation; wind_speed ].

Definition neutral : string := "#9CA3AF".

(** The test of the [for] loop's [if]. *)
Definition in_rule (value : number) (r : ColorRule.t) : bool :=
  num_ge value (ColorRule.min r) && num_lt value (ColorRule.max r).

(** The [for ... of] loop: the color of the first rule that holds [value]. *)
Fixpoint scan_rules (value : number) (rules : list ColorRule.t) : option string :=
  match rules with
  | [] => None
  | r :: rest =>
      if in_rule value r then Some (ColorRule.color r) else scan_rules value rest
  end.

(** [rules[rules.length - 1].color]: reading [.color] of [undefined] raises. *)
Definition last_rule_color (rules : list ColorRule.t) : completion string :=
  match nth_error rules (List.length rules - 1) with
  | Some r => Normal (ColorRule.color r)
  | None => Throw TypeError
  end.

Definition getColorForValueIn (catalog : list DataSource.t)
    (value : number) (dataSourceId : string) : completion string :=
  match find (fun ds => String.eqb (DataSource.id ds) dataSourceId) catalog with
  | None => Normal neutral
  | Some dataSource =>
      match scan_rules value (DataSource.colorRules dataSource) with
      | Some c => Normal c
      | None => last_rule_color (DataSource.colorRules dataSource)
      end
  end.

Definition getColorForValue : number -> string -> completion string :=
  getColorForValueIn dataSources.

(** ** Centroid of a coordinate sequence *)

Definition latSum (coordinates : list coord) : Q :=
  fold_left (fun sum c => sum + fst c)%Q coordinates 0%Q.

Definition lonSum (coordinates : list coord) : Q :=
  fold_left (fun sum c => sum + snd c)%Q coordinates 0%Q.

Definition centroid (coordinates : list coord) : number * number :=
  (div_by_length (latSum coordinates) (List.length coordinates),
   div_by_length (lonSum coordinates) (List.length coordinates)).

(** ** [fetchWeatherData] *)

(** A value interpolated into the request URL. *)
Inductive binding : Type :=
| as_number (n : number)
| as_string (s : string)
| as_date (d : Date)
| formatted (d : Date) (pattern : string).

(** The query of the URL, one field per parameter. *)
Module Request.
Record t : Type := mk {
  latitude : binding;
  longitude : binding;
  hourly : binding;
  start_date : binding;
  end_date : binding
}.
End Request.

(** Elements of a series as the filter of [fetchWeatherData] tells them apart. *)
Inductive sample : Type :=
| sample_null
| sample_undefined
| sample_num (q : Q).

(** What [data.hourly[selectedDataSource]] can be. *)
Inductive hourly_entry : Type :=
| entry_falsy                         (* undefined, null: [!values] holds *)
| entry_not_array                     (* truthy and without [filter] *)
| entry_array (values : list sample).

Inductive payload : Type :=
| payload_without_hourly              (* [data.hourly] is undefined *)
| payload_hourly (entries : string -> hourly_entry).

Inductive response_body : Type :=
| body_unparsable                     (* [response.json()] rejects *)
| body_json (data : payload).

Inductive fetch_outcome : Type :=
| network_error                       (* [fetch] rejects *)
| response (ok : bool) (body : response_body).

(** The external data source. *)
Definition api : Type := Request.t -> fetch_outcome.

Definition scope : Type := list (string * binding).

(** Reading an identifier: one that no declaration binds raises. *)
Fixpoint resolve_identifier (x : string) (sc : scope) : completion binding :=
  match sc with
  | [] => Throw (ReferenceError x)
  | (y, b) :: rest => if String.eqb x y then Normal b else resolve_identifier x rest
  end.

Definition clamp_latitude (lat : number) : number :=
  Math_max (Fin (-90)) (Math_min (Fin 90) lat).

(** Identifiers in scope at the template literal of [fetchWeatherData]: the
    three [const]s declared above it, the parameters, and the selection the
    callback closes over. *)
Definition fetch_scope (selectedDataSource : string) (lat lon : number)
    (startTime endTime : Date) : scope :=
  [ ("endStr", formatted endTime "yyyy-MM-dd");
    ("startStr", formatted startTime "yyyy-MM-dd");
    ("clampedLat", as_number (clamp_latitude lat));
    ("lat", as_number lat);
    ("lon", as_number lon);
    ("startTime", as_date startTime);
    ("endTime", as_date endTime);
    ("selectedDataSource", as_string selectedDataSource) ].

(** The template literal, interpolations evaluated left to right. *)
Definition request_url (sc : scope) : completion Request.t :=
  la <- resolve_identifier "clampedLat" sc ;;
  lo <- resolve_identifier "clampedLon" sc ;;
  h <- resolve_identifier "selectedDataSource" sc ;;
  s <- resolve_identifier "startStr" sc ;;
  e <- resolve_identifier "endStr" sc ;;
  Normal (Request.mk la lo h s e).

(** [values.filter(v => v !== null && v !== undefined)] *)
Fixpoint validValues (values : list sample) : list Q :=
  match values with
  | [] => []
  | sample_num q :: rest => q :: validValues rest
  | _ :: rest => validValues rest
  end.

(** [validValues.reduce((a, b) => a + b, 0) / validValues.length] *)
Definition average (valid : list Q) : number :=
  div_by_length (fold_left Qplus valid 0%Q) (List.length valid).

(** The body of the [try] once [fetch] has settled. *)
Definition read_series (selectedDataSource : string) (r : fetch_outcome)
    : completion maybe_number :=
  match r with
  | network_error => Throw TypeError
  | response ok body =>
      if negb ok then Throw (Error "Failed to fetch weather data") else
      match body with
      | body_unparsable => Throw SyntaxError
      | body_json payload_without_hourly => Throw TypeError
      | body_json (payload_hourly entries) =>
          match entries selectedDataSource with
          | entry_falsy => Normal null
          | entry_not_array => Throw TypeError
          | entry_array values =>
              if Nat.eqb (List.length values) 0 then Normal null else
              let valid := validValues values in
              if Nat.ltb 0 (List.length valid)
              then Normal (num (average valid)) else Normal null
          end
      end
  end.

(** The [catch] block: log and return [null]. *)
Definition catch_null (c : completion maybe_number) : maybe_number :=
  match c with
  | Normal v => v
  | Throw _ => null
  end.

(** [fetchWeatherData]: the requests it sends and the value it resolves to. *)
Definition fetchWeatherData (world : api) (selectedDataSource : string)
    (lat lon : number) (startTime endTime : Date)
    : list Request.t * maybe_number :=
  match request_url (fetch_scope selectedDataSource lat lon startTime endTime) with
  | Throw _ => ([], null)
  | Normal req => ([req], catch_null (read_series selectedDataSource (world req)))
  end.

(** [value !== null ? getColorForValue(value, selectedDataSource) : '#9CA3AF'] *)
Definition color_of_value (value : maybe_number) (selectedDataSource : string)
    : completion string :=
  match value with
  | null => Normal neutral
  | _ => getColorForValue (to_number value) selectedDataSource
  end.

(** ** The dashboard: polygon store and recompute coordinator *)

(** A call suspended at its [await]: what it closed over when it was issued. *)
Inductive task : Type :=
| recompute (snapshot : list Polygon.t) (selected : string) (range : TimeRange.t)
| first_fetch (polygonId : string) (coordinates : list coord)
    (selected : string) (range : TimeRange.t).

Module Dashboard.
Record t : Type := mk {
  polygons : list Polygon.t;
  isDrawing : bool;
  selectedDataSource : string;
  timeRange : TimeRange.t;
  inflight : list task
}.
End Dashboard.

(** The state of the first render; the clock gives [timeRange]. *)
Definition initial (range : TimeRange.t) : Dashboard.t :=
  Dashboard.mk [] false "temperature_2m" range [].

(** [`polygon-${Date.now()}`] *)
Definition polygon_id (now : Z) : string :=
  "polygon-" ++ NilZero.string_of_int (Z.to_int now).

Definition newPolygon (now : Z) (coordinates : list coord) (selected : string)
    : Polygon.t :=
  Polygon.mk (polygon_id now) coordinates neutral undefined selected.

(** [handlePolygonComplete] up to its [await]; [now] is the clock reading. *)
Definition handlePolygonComplete (now : Z) (coordinates : list coord)
    (s : Dashboard.t) : Dashboard.t :=
  Dashboard.mk
    (Dashboard.polygons s
       ++ [newPolygon now coordinates (Dashboard.selectedDataSource s)])
    false
    (Dashboard.selectedDataSource s)
    (Dashboard.timeRange s)
    (Dashboard.inflight s
       ++ [first_fetch (polygon_id now) coordinates
             (Dashboard.selectedDataSource s) (Dashboard.timeRange s)]).

Definition handleDeletePolygon (polygonId : string) (s : Dashboard.t)
    : Dashboard.t :=
  Dashboard.mk
    (filter (fun p => negb (String.eqb (Polygon.id p) polygonId))
       (Dashboard.polygons s))
    (Dashboard.isDrawing s)
    (Dashboard.selectedDataSource s)
    (Dashboard.timeRange s)
    (Dashboard.inflight s).

Definition setIsDrawing (b : bool) (s : Dashboard.t) : Dashboard.t :=
  Dashboard.mk (Dashboard.polygons s) b (Dashboard.selectedDataSource s)
    (Dashboard.timeRange s) (Dashboard.inflight s).

(** The effect on [timeRange, selectedDataSource]: it calls the
    [updatePolygonColors] of the render it belongs to. *)
Definition recompute_effect (s : Dashboard.t) : Dashboard.t :=
  if Nat.ltb 0 (List.length (Dashboard.polygons s)) then
    Dashboard.mk (Dashboard.polygons s) (Dashboard.isDrawing s)
      (Dashboard.selectedDataSource s) (Dashboard.timeRange s)
      (Dashboard.inflight s
         ++ [recompute (Dashboard.polygons s) (Dashboard.selectedDataSource s)
               (Dashboard.timeRange s)])
  else s.

(** [setSelectedDataSource]: setting the current value renders nothing. *)
Definition onDataSourceChange (dataSourceId : string) (s : Dashboard.t)
    : Dashboard.t :=
  if String.eqb dataSourceId (Dashboard.selectedDataSource s) then s
  else recompute_effect
         (Dashboard.mk (Dashboard.polygons s) (Dashboard.isDrawing s)
            dataSourceId (Dashboard.timeRange s) (Dashboard.inflight s)).

(** [setTimeRange]: the slider hands over a fresh object every time. *)
Definition onRangeChange (range : TimeRange.t) (s : Dashboard.t) : Dashboard.t :=
  recompute_effect
    (Dashboard.mk (Dashboard.polygons s) (Dashboard.isDrawing s)
       (Dashboard.selectedDataSource s) range (Dashboard.inflight s)).

Fixpoint map_all {A B} (f : A -> completion B) (l : list A)
    : completion (list B) :=
  match l with
  | [] => Normal []
  | x :: rest => y <- f x ;; ys <- map_all f rest ;; Normal (y :: ys)
  end.

Fixpoint remove_nth {A} (k : nat) (l : list A) : list A :=
  match l, k with
  | [], _ => []
  | _ :: rest, O => rest
  | x :: rest, S k' => x :: remove_nth k' rest
  end.

Section Coordinator.

(** What a call of [fetchWeatherData] resolves to, by the selection it
    closed over and its arguments. *)
Variable fetch : string -> number -> number -> Date -> Date -> maybe_number.

(** The callback mapped over the polygons by [updatePolygonColors]. *)
Definition refreshed (selected : string) (range : TimeRange.t)
    (polygon : Polygon.t) : completion Polygon.t :=
  let (lat, lon) := centroid (Polygon.coordinates polygon) in
  let value :=
    fetch selected lat lon (TimeRange.start range) (TimeRange.end_ range) in
  color <- color_of_value value selected ;;
  Normal (Polygon.mk (Polygon.id polygon) (Polygon.coordinates polygon)
            color value selected).

(** The functional update at the end of [handlePolygonComplete]. *)
Definition patch (polygonId : string) (value : maybe_number)
    (color selected : string) (p : Polygon.t) : Polygon.t :=
  if String.eqb (Polygon.id p) polygonId
  then Polygon.mk (Polygon.id p) (Polygon.coordinates p) color value selected
  else p.

Definition with_polygons (ps : list Polygon.t) (s : Dashboard.t)
    : Dashboard.t :=
  Dashboard.mk ps (Dashboard.isDrawing s) (Dashboard.selectedDataSource s)
    (Dashboard.timeRange s) (Dashboard.inflight s).

Definition without_task (k : nat) (s : Dashboard.t) : Dashboard.t :=
  Dashboard.mk (Dashboard.polygons s) (Dashboard.isDrawing s)
    (Dashboard.selectedDataSource s) (Dashboard.timeRange s)
    (remove_nth k (Dashboard.inflight s)).

(** What a suspended call does once its fetches have settled. An exception
    past the [await] rejects the call's promise and sets nothing. *)
Definition continuation (t : task) (s : Dashboard.t) : Dashboard.t :=
  match t with
  | recompute snapshot selected range =>
      match map_all (refreshed selected range) snapshot with
      | Normal updatedPolygons => with_polygons updatedPolygons s
      | Throw _ => s
      end
  | first_fetch polygonId coordinates selected range =>
      let (lat, lon) := centroid coordinates in
      let value :=
        fetch selected lat lon (TimeRange.start range) (TimeRange.end_ range) in
      match color_of_value value selected with
      | Normal color =>
          with_polygons
            (map (patch polygonId value color selected) (Dashboard.polygons s)) s
      | Throw _ => s
      end
  end.

(** The [k]-th suspended call resumes. *)
Definition resolve (k : nat) (s : Dashboard.t) : Dashboard.t :=
  match nth_error (Dashboard.inflight s) k with
  | None => s
  | Some t => continuation t (without_task k s)
  end.

End Coordinator.

(** The program as wired in [page.tsx]: the coordinator over [fetchWeatherData]. *)
Definition wired_fetch (world : api)
    : string -> number -> number -> Date -> Date -> maybe_number :=
  fun selected lat lon startTime endTime =>
    snd (fetchWeatherData world selected lat lon startTime endTime).

(** ** The drawing session of [InteractiveMap.tsx] *)

Module Drawing.
Record t : Type := mk {
  drawingPoints : list coord;
  drawingMarkers : list coord;
  previewPolygon : option (list coord)
}.
End Drawing.

Definition cleared : Drawing.t := Drawing.mk [] [] None.

Definition handleMapClick (isDrawing : bool) (latlng : coord) (d : Drawing.t)
    : Drawing.t :=
  if negb isDrawing then d else
  let newPoints := Drawing.drawingPoints d ++ [latlng] in
  if Nat.ltb 12 (List.length newPoints) then d else
  Drawing.mk newPoints
    (Drawing.drawingMarkers d ++ [latlng])
    (if Nat.leb 3 (List.length newPoints) then Some newPoints
     else Drawing.previewPolygon d).

(** [handleRightClick]: the coordinates handed to [onPolygonComplete], if any,
    and the session afterwards. *)
Definition handleRightClick (isDrawing : bool) (d : Drawing.t)
    : option (list coord) * Drawing.t :=
  if negb isDrawing || Nat.ltb (List.length (Drawing.drawingPoints d)) 3
  then (None, d)
  else (Some (Drawing.drawingPoints d), cleared).

(** The [else] branch of the drawing effect, run when [isDrawing] is off. *)
Definition drawing_effect (isDrawing : bool) (d : Drawing.t) : Drawing.t :=
  if isDrawing then d else cleared.

(** The two components together. *)
Module App.
Record t : Type := mk { dashboard : Dashboard.t; map : Drawing.t }.
End App.

Definition onStartDrawing (a : App.t) : App.t :=
  App.mk (setIsDrawing true (App.dashboard a)) (App.map a).

Definition onStopDrawing (a : App.t) : App.t :=
  App.mk (setIsDrawing false (App.dashboard a)) cleared.

Definition click (latlng : coord) (a : App.t) : App.t :=
  App.mk (App.dashboard a)
    (handleMapClick (Dashboard.isDrawing (App.dashboard a)) latlng (App.map a)).

Definition contextmenu (now : Z) (a : App.t) : App.t :=
  match handleRightClick (Dashboard.isDrawing (App.dashboard a)) (App.map a) with
  | (None, _) => a
  | (Some coordinates, d) =>
      let s := handlePolygonComplete now coordinates (App.dashboard a) in
      App.mk s (drawing_effect (Dashboard.isDrawing s) d)
  end.

(** ** How a polygon's value is shown *)

Inductive shown : Type :=
| nothing
| loading
| fixed1 (n : number).

(** [DataSourcePanel.tsx], the value row of the polygons tab:
    [polygon.value !== undefined && ... polygon.value.toFixed(1) ...] *)
Definition panel_value_row (p : Polygon.t) : completion shown :=
  match Polygon.value p with
  | undefined => Normal nothing
  | null => Throw TypeError
  | num n => Normal (fixed1 n)
  end.

(** [InteractiveMap.tsx], the popup:
    [polygon.value != null ? `Value: ${polygon.value.toFixed(1)}` : 'Loading...'] *)
Definition popup_value (p : Polygon.t) : completion shown :=
  match Polygon.value p with
  | undefined | null => Normal loading
  | num n => Normal (fixed1 n)
  end.

(** Rendering the polygons tab: one card per polygon. *)
Definition render_polygons_tab (polygons : list Polygon.t)
    : completion (list shown) :=
  map_all panel_value_row polygons.

(** Several clicks, and several commits with their clock readings. *)
Definition clicks (points : list coord) (a : App.t) : App.t :=
  fold_left (fun a latlng => click latlng a) points a.

Definition commits (log : list (Z * list coord)) (s : Dashboard.t)
    : Dashboard.t :=
  fold_left (fun s e => handlePolygonComplete (fst e) (snd e) s) log s.

(** The arithmetic mean as the specification words it: the sum of the
    numbers divided by how many they are. *)
Definition arithmetic_mean (xs : list Q) : Q :=
  (fold_right Qplus 0 xs / inject_Z (Z.of_nat (List.length xs)))%Q.

(** A data source that answers every query by the variable alone. *)
Definition steady_source
    : string -> number -> number -> Date -> Date -> maybe_number :=
  fun selected _ _ _ _ =>
    if String.eqb selected "precipitation" then num (Fin 2)
    else if String.eqb selected "relative_humidity_2m" then num (Fin 50)
    else num (Fin 5).

(** The ways a fetch fails: network error, non-success response, malformed
    payload, empty series. *)
Inductive failed (selectedDataSource : string) : fetch_outcome -> Prop :=
| failed_network : failed selectedDataSource network_error
| failed_status body : failed selectedDataSource (response false body)
| failed_unparsable : failed selectedDataSource (response true body_unparsable)
| failed_no_hourly :
    failed selectedDataSource (response true (body_json payload_without_hourly))
| failed_no_series entries :
    entries selectedDataSource = entry_falsy ->
    failed selectedDataSource (response true (body_json (payload_hourly entries)))
| failed_not_array entries :
    entries selectedDataSource = entry_not_array ->
    failed selectedDataSource (response true (body_json (payload_hourly entries)))
| failed_empty entries :
    entries selectedDataSource = entry_array [] ->
    failed selectedDataSource (response true (body_json (payload_hourly entries))).



(** What one polygon of a snapshot becomes when its recompute resumes. *)
Definition derived_from (fetch : string -> number -> number -> Date -> Date
                                 -> maybe_number)
    (selected : string) (range : TimeRange.t) (p p' : Polygon.t) : Prop :=
  Polygon.id p' = Polygon.id p
  /\ Polygon.coordinates p' = Polygon.coordinates p
  /\ Polygon.dataSource p' = selected
  /\ Polygon.value p'
     = fetch selected (fst (centroid (Polygon.coordinates p)))
         (snd (centroid (Polygon.coordinates p)))
         (TimeRange.start range) (TimeRange.end_ range)
  /\ color_of_value (Polygon.value p') selected = Normal (Polygon.color p').

(** ** The application as a machine of user and network events *)

(** The dashboard handlers seen from the whole application: after the render
    they cause, the drawing effect of the map runs on the new [isDrawing]. *)
Definition on_dashboard (f : Dashboard.t -> Dashboard.t) (a : App.t) : App.t :=
  let s := f (App.dashboard a) in
  App.mk s (drawing_effect (Dashboard.isDrawing s) (App.map a)).

(** [DataSourcePanel.tsx], the drawing button:
    [onClick={isDrawing ? onStopDrawing : onStartDrawing}] with
    [disabled={isDrawing}]: while drawing it fires nothing. *)
Definition draw_button_click (a : App.t) : App.t :=
  if Dashboard.isDrawing (App.dashboard a) then a else onStartDrawing a.

Inductive event : Type :=
| draw_button
| map_click (latlng : coord)
| map_contextmenu (now : Z)
| source_button (dataSourceId : string)
| delete_polygon (polygonId : string)
| range_slider (range : TimeRange.t)
| settle (k : nat).

Definition step
    (fetch : string -> number -> number -> Date -> Date -> maybe_number)
    (e : event) (a : App.t) : App.t :=
  match e with
  | draw_button => draw_button_click a
  | map_click latlng => click latlng a
  | map_contextmenu now => contextmenu now a
  | source_button dataSourceId => on_dashboard (onDataSourceChange dataSourceId) a
  | delete_polygon polygonId => on_dashboard (handleDeletePolygon polygonId) a
  | range_slider range => on_dashboard (onRangeChange range) a
  | settle k => on_dashboard (resolve fetch k) a
  end.

Definition run
    (fetch : string -> number -> number -> Date -> Date -> maybe_number)
    (events : list event) (a : App.t) : App.t :=
  fold_left (fun a e => step fetch e a) events a.

(** The application at its first render. *)
Definition start (range : TimeRange.t) : App.t :=
  App.mk (initial range) cleared.

(** A coordinate sequence the drawing protocol lets through. *)
Definition drawable (coordinates : list coord) : Prop :=
  3 <= List.length coordinates <= 12.

(** The coordinate sequences a suspended call holds. *)
Definition task_shapes (t : task) : list (list coord) :=
  match t with
  | recompute snapshot _ _ => map Polygon.coordinates snapshot
  | first_fetch _ coordinates _ _ => [coordinates]
  end.

Definition shapes_ok (s : Dashboard.t) : Prop :=
  Forall drawable (map Polygon.coordinates (Dashboard.polygons s))
  /\ Forall (fun t => Forall drawable (task_shapes t)) (Dashboard.inflight s).

(** What the session of the map looks like between two events. *)
Definition session_ok (a : App.t) : Prop :=
  let d := App.map a in
  List.length (Drawing.drawingPoints d) <= 12
  /\ Drawing.drawingMarkers d = Drawing.drawingPoints d
  /\ Drawing.previewPolygon d
     = (if Nat.leb 3 (List.length (Drawing.drawingPoints d))
        then Some (Drawing.drawingPoints d) else None)
  /\ (Dashboard.isDrawing (App.dashboard a) = false -> d = cleared).

(** The color of a polygon agrees with its value and its own variable. *)
Definition well_colored (p : Polygon.t) : Prop :=
  (Polygon.value p = undefined /\ Polygon.color p = neutral)
  \/ color_of_value (Polygon.value p) (Polygon.dataSource p)
     = Normal (Polygon.color p).

(** ** The polygon layers of the map, [InteractiveMap.tsx] *)

Module Layer.
Record t : Type := mk {
  latlngs : list coord;
  style : string;
  popup : shown
}.
End Layer.

(** [polygonLayersRef.current]: a [Map] from identifier to layer, in
    insertion order. *)
Definition layers : Type := list (string * Layer.t).

Fixpoint layer_get (polygonId : string) (m : layers) : option Layer.t :=
  match m with
  | [] => None
  | (k, l) :: rest =>
      if String.eqb k polygonId then Some l else layer_get polygonId rest
  end.

(** [existingLayer.setStyle({ fillColor, color })] on the layer stored
    under [polygonId]. *)
Definition setStyle (polygonId color : string) (m : layers) : layers :=
  map (fun e => if String.eqb (fst e) polygonId
                then (fst e, Layer.mk (Layer.latlngs (snd e)) color
                               (Layer.popup (snd e)))
                else e) m.

(** The text bound to the popup when a layer is created. *)
Definition popup_text (p : Polygon.t) : shown :=
  match Polygon.value p with
  | undefined | null => loading
  | num n => fixed1 n
  end.

(** First loop of the effect: layers whose identifier no polygon carries
    are taken off the map and out of the [Map]. *)
Definition remove_old (polygons : list Polygon.t) (m : layers) : layers :=
  filter (fun e => existsb (fun p => String.eqb (Polygon.id p) (fst e)) polygons)
    m.

(** Body of the second loop. *)
Definition add_or_update (m : layers) (polygon : Polygon.t) : layers :=
  match layer_get (Polygon.id polygon) m with
  | Some _ => setStyle (Polygon.id polygon) (Polygon.color polygon) m
  | None =>
      m ++ [(Polygon.id polygon,
             Layer.mk (Polygon.coordinates polygon) (Polygon.color polygon)
               (popup_text polygon))]
  end.

(** The effect on [polygons]. *)
Definition sync_layers (polygons : list Polygon.t) (m : layers) : layers :=
  fold_left add_or_update polygons (remove_old polygons m).

(** ** The centroid on binary64 numbers *)

(** The sums and the divisions of [page.tsx], lines 151 to 154 and 189 to
    192, on the numbers the program runs on. *)
Module Double.
Import PrimFloat.

Definition coord : Type := (float * float)%type.

Definition latSum (coordinates : list coord) : float :=
  fold_left (fun sum c => sum + fst c)%float coordinates 0%float.

Definition lonSum (coordinates : list coord) : float :=
  fold_left (fun sum c => sum + snd c)%float coordinates 0%float.

(** [coordinates.length] as a number. *)
Definition length_of (n : nat) : float :=
  of_uint63 (Uint63.of_Z (Z.of_nat n)).

Definition centroid (coordinates : list coord) : float * float :=
  (latSum coordinates / length_of (List.length coordinates),
   lonSum coordinates / length_of (List.length coordinates))%float.







End Double.

(** * Properties *)

(** ** Classifier *)

Lemma in_rule_finite (q lo hi : Q) (c : string) :
  in_rule (Fin q) (rule lo hi c) = true <-> (lo <= q /\ q < hi)%Q.
Proof.
  unfold in_rule, rule; simpl.
  rewrite andb_true_iff, negb_true_iff, Qle_bool_iff.
  split; intros [Hlo Hhi]; split; trivial.
  - apply Qnot_le_lt. intro Hle. apply Qle_bool_iff in Hle. congruence.
  - destruct (Qle_bool hi q) eqn:E; trivial.
    apply Qle_bool_iff in E. exfalso. exact (Qlt_not_le _ _ Hhi E).
Qed.

Lemma in_rule_NaN (r : ColorRule.t) : in_rule NaN r = false.
Proof. reflexivity. Qed.

Lemma scan_rules_first (v : number) (pre : list ColorRule.t) (r : ColorRule.t)
    (post : list ColorRule.t) :
  (forall r', In r' pre -> in_rule v r' = false) ->
  in_rule v r = true ->
  scan_rules v (pre ++ r :: post) = Some (ColorRule.color r).
Proof.
  induction pre as [|r0 pre IH]; intros Hpre Hr; simpl.
  - now rewrite Hr.
  - rewrite (Hpre r0 (or_introl eq_refl)). apply IH; trivial.
    intros r' Hin. apply Hpre. now right.
Qed.

Lemma scan_rules_none (v : number) (rules : list ColorRule.t) :
  (forall r, In r rules -> in_rule v r = false) ->
  scan_rules v rules = None.
Proof.
  induction rules as [|r0 rules IH]; intros Hall; simpl; trivial.
  rewrite (Hall r0 (or_introl eq_refl)). apply IH.
  intros r Hin. apply Hall. now right.
Qed.

Lemma scan_rules_some_in (v : number) (rules : list ColorRule.t) (c : string) :
  scan_rules v rules = Some c ->
  exists r, In r rules /\ in_rule v r = true /\ ColorRule.color r = c.
Proof.
  induction rules as [|r0 rules IH]; simpl; intros H; [discriminate|].
  destruct (in_rule v r0) eqn:E.
  - injection H as <-. exists r0. auto.
  - destruct (IH H) as (r & Hin & Hr & Hc). exists r. auto.
Qed.

Lemma last_rule_color_snoc (init : list ColorRule.t) (l : ColorRule.t) :
  last_rule_color (init ++ [l]) = Normal (ColorRule.color l).
Proof.
  unfold last_rule_color.
  rewrite length_app; simpl.
  replace (List.length init + 1 - 1)%nat with (List.length init) by lia.
  rewrite nth_error_app2 by lia.
  now rewrite Nat.sub_diag.
Qed.

Lemma find_in_catalog (ds : DataSource.t) :
  In ds dataSources ->
  find (fun d => String.eqb (DataSource.id d) (DataSource.id ds)) dataSources
  = Some ds.
Proof.
  intros H. repeat (destruct H as [<- | H]; [reflexivity|]). destruct H.
Qed.

Lemma catalog_rules_snoc (ds : DataSource.t) :
  In ds dataSources ->
  exists init l, DataSource.colorRules ds = init ++ [l].
Proof.
  intros H.
  repeat (destruct H as [<- | H];
          [ eexists [_; _; _; _], _; reflexivity |]).
  destruct H.
Qed.

(** The classifier never raises on the catalog. *)
Lemma getColorForValue_total (v : number) (dataSourceId : string) :
  exists c, getColorForValue v dataSourceId = Normal c.
Proof.
  unfold getColorForValue, getColorForValueIn.
  destruct (find _ dataSources) as [ds|] eqn:Hfind; [|now exists neutral].
  destruct (scan_rules v (DataSource.colorRules ds)) as [c|]; [now exists c|].
  apply find_some in Hfind. destruct Hfind as [Hin _].
  destruct (catalog_rules_snoc ds Hin) as (init & l & ->).
  rewrite last_rule_color_snoc. now eexists.
Qed.

(** C3. For a variable of the catalog and any value [v], the classifier
    returns the color of the first rule of the ordered list with
    [min <= v < max]; when no rule holds [v] it returns the color of the
    last rule, and NaN is held by no rule. *)
Theorem getColorForValue_first_match_else_last (ds : DataSource.t) (v : number) :
  In ds dataSources ->
  let rules := DataSource.colorRules ds in
  (forall pre r post,
      rules = pre ++ r :: post ->
      (forall r', In r' pre -> in_rule v r' = false) ->
      num_ge v (ColorRule.min r) = true ->
      num_lt v (ColorRule.max r) = true ->
      getColorForValue v (DataSource.id ds) = Normal (ColorRule.color r))
  /\ ((forall r, In r rules -> in_rule v r = false) ->
      exists init l,
        rules = init ++ [l]
        /\ getColorForValue v (DataSource.id ds) = Normal (ColorRule.color l))
  /\ (forall r, In r rules -> in_rule NaN r = false).
Proof.
  intros Hin rules. unfold getColorForValue, getColorForValueIn.
  rewrite (find_in_catalog ds Hin). fold rules.
  split; [|split].
  - intros pre r post -> Hpre Hge Hlt.
    rewrite (scan_rules_first v pre r post Hpre); trivial.
    unfold in_rule. now rewrite Hge, Hlt.
  - intros Hnone. rewrite (scan_rules_none v rules Hnone).
    destruct (catalog_rules_snoc ds Hin) as (init & l & E).
    exists init, l. split; [exact E|].
    unfold rules. rewrite E. apply last_rule_color_snoc.
  - intros r _. apply in_rule_NaN.
Qed.

Lemma getColorForValue_first_match_else_last_witness :
  In temperature dataSources
  /\ getColorForValue (Fin 5) "temperature_2m" = Normal "#06B6D4"
  /\ getColorForValue (Fin (-25)) "temperature_2m" = Normal "#EF4444"
  /\ getColorForValue NaN "temperature_2m" = Normal "#EF4444".
Proof.
  assert (Hin : In temperature dataSources) by (left; reflexivity).
  split; [exact Hin|].
  split; [|split].
  - destruct (getColorForValue_first_match_else_last temperature (Fin 5) Hin)
      as (Hfirst & _ & _).
    apply (Hfirst [rule (-20) 0 "#3B82F6"] (rule 0 10 "#06B6D4")
             [rule 10 20 "#10B981"; rule 20 30 "#F59E0B"; rule 30 50 "#EF4444"]).
    + reflexivity.
    + intros r' [<- | []]. reflexivity.
    + reflexivity.
    + reflexivity.
  - destruct (getColorForValue_first_match_else_last temperature (Fin (-25)) Hin)
      as (_ & Hlast & _).
    destruct Hlast as (init & l & E & Hc).
    + intros r Hr. simpl in Hr.
      repeat (destruct Hr as [<- | Hr]; [reflexivity|]). destruct Hr.
    + transitivity (Normal (ColorRule.color l)); [exact Hc|]. f_equal.
      change (DataSource.colorRules temperature) with
        ([ rule (-20) 0 "#3B82F6"; rule 0 10 "#06B6D4"; rule 10 20 "#10B981";
           rule 20 30 "#F59E0B" ] ++ [rule 30 50 "#EF4444"]) in E.
      apply app_inj_tail in E. destruct E as [_ <-]. reflexivity.
  - destruct (getColorForValue_first_match_else_last temperature NaN Hin)
      as (_ & Hlast & Hnan).
    destruct (Hlast Hnan) as (init & l & E & Hc).
    transitivity (Normal (ColorRule.color l)); [exact Hc|]. f_equal.
    change (DataSource.colorRules temperature) with
      ([ rule (-20) 0 "#3B82F6"; rule 0 10 "#06B6D4"; rule 10 20 "#10B981";
         rule 20 30 "#F59E0B" ] ++ [rule 30 50 "#EF4444"]) in E.
    apply app_inj_tail in E. destruct E as [_ <-]. reflexivity.
Defined.

(** C10. An identifier outside the catalog is classified as the neutral
    color, whatever the value: the classifier does not raise. *)
Theorem getColorForValue_unknown_variable (v : number) (dataSourceId : string) :
  ~ In dataSourceId (map DataSource.id dataSources) ->
  getColorForValue v dataSourceId = Normal neutral
  /\ neutral = "#9CA3AF".
Proof.
  intros Hout. split; [|reflexivity].
  unfold getColorForValue, getColorForValueIn.
  destruct (find _ dataSources) as [ds|] eqn:Hfind; trivial.
  apply find_some in Hfind. destruct Hfind as [Hin Heq].
  apply String.eqb_eq in Heq. exfalso. apply Hout.
  rewrite <- Heq. now apply in_map.
Qed.

Lemma getColorForValue_unknown_variable_witness :
  getColorForValue (Fin 12) "cloud_cover" = Normal neutral
  /\ neutral = "#9CA3AF".
Proof.
  apply (getColorForValue_unknown_variable (Fin 12) "cloud_cover").
  simpl. intros H.
  repeat (destruct H as [H | H]; [discriminate H|]). exact H.
Defined.

(** ** Drawing protocol *)

Lemma handleMapClick_full (isDrawing : bool) (latlng : coord) (d : Drawing.t) :
  12 <= List.length (Drawing.drawingPoints d) ->
  handleMapClick isDrawing latlng d = d.
Proof.
  intros Hfull. unfold handleMapClick.
  destruct isDrawing; simpl; trivial.
  rewrite length_app; simpl.
  destruct (Nat.ltb_spec 12 (List.length (Drawing.drawingPoints d) + 1)); [trivial|lia].
Qed.

(** The session never holds more than 12 points. *)
Lemma handleMapClick_at_most_12 (isDrawing : bool) (latlng : coord) (d : Drawing.t) :
  List.length (Drawing.drawingPoints d) <= 12 ->
  List.length (Drawing.drawingPoints (handleMapClick isDrawing latlng d)) <= 12.
Proof.
  intros Hle. unfold handleMapClick.
  destruct isDrawing; simpl; trivial.
  destruct (Nat.ltb_spec 12 (List.length (Drawing.drawingPoints d ++ [latlng])));
    simpl; lia.
Qed.

(** C5. With 12 points captured, a further click changes nothing: the
    point count stays 12, no marker or preview is added, and no polygon is
    committed (drawing stays on). *)
Theorem click_with_12_points_is_ignored (latlng : coord) (a : App.t) :
  List.length (Drawing.drawingPoints (App.map a)) = 12 ->
  click latlng a = a
  /\ List.length (Drawing.drawingPoints (App.map (click latlng a))) = 12
  /\ Drawing.drawingMarkers (App.map (click latlng a))
     = Drawing.drawingMarkers (App.map a)
  /\ Drawing.previewPolygon (App.map (click latlng a))
     = Drawing.previewPolygon (App.map a)
  /\ Dashboard.polygons (App.dashboard (click latlng a))
     = Dashboard.polygons (App.dashboard a)
  /\ Dashboard.isDrawing (App.dashboard (click latlng a))
     = Dashboard.isDrawing (App.dashboard a).
Proof.
  intros H12.
  assert (E : click latlng a = a).
  { destruct a as [s d]. unfold click; simpl in *.
    rewrite handleMapClick_full by lia. reflexivity. }
  rewrite E. repeat split; trivial.
Qed.

Lemma click_with_12_points_is_ignored_witness :
  let range := TimeRange.mk 0%Z 86400000%Z in
  let twelve : list coord :=
    [ (0, 0); (0, 1); (0, 2); (0, 3); (1, 3); (2, 3);
      (3, 3); (3, 2); (3, 1); (3, 0); (2, 0); (1, 0) ]%Q in
  let a := clicks twelve (onStartDrawing (App.mk (initial range) cleared)) in
  List.length (Drawing.drawingPoints (App.map a)) = 12
  /\ click (5, 5)%Q a = a.
Proof.
  intros range twelve a.
  assert (H12 : List.length (Drawing.drawingPoints (App.map a)) = 12)
    by reflexivity.
  split; [exact H12|].
  exact (proj1 (click_with_12_points_is_ignored (5, 5)%Q a H12)).
Defined.

Lemma contextmenu_completes (now : Z) (a : App.t) :
  Dashboard.isDrawing (App.dashboard a) = true ->
  3 <= List.length (Drawing.drawingPoints (App.map a)) ->
  contextmenu now a
  = App.mk (handlePolygonComplete now (Drawing.drawingPoints (App.map a))
              (App.dashboard a))
           cleared.
Proof.
  intros Hon H3. unfold contextmenu, handleRightClick. rewrite Hon; simpl.
  destruct (Nat.ltb_spec (List.length (Drawing.drawingPoints (App.map a))) 3);
    [lia|reflexivity].
Qed.

(** C6. A right click with fewer than 3 captured points changes nothing: no
    polygon reaches the store and the session goes on. After exactly three
    clicks in a fresh session, a right click appends one polygon whose
    coordinates are the three points in click order, turns drawing off and
    clears the session. *)
Theorem contextmenu_needs_three_points (now : Z) (a : App.t) :
  (List.length (Drawing.drawingPoints (App.map a)) < 3 -> contextmenu now a = a)
  /\ (forall p1 p2 p3 : coord,
        Dashboard.isDrawing (App.dashboard a) = true ->
        App.map a = cleared ->
        let a3 := click p3 (click p2 (click p1 a)) in
        Drawing.drawingPoints (App.map a3) = [p1; p2; p3]
        /\ Dashboard.polygons (App.dashboard (contextmenu now a3))
           = Dashboard.polygons (App.dashboard a)
               ++ [Polygon.mk (polygon_id now) [p1; p2; p3] neutral undefined
                     (Dashboard.selectedDataSource (App.dashboard a))]
        /\ Dashboard.isDrawing (App.dashboard (contextmenu now a3)) = false
        /\ App.map (contextmenu now a3) = cleared).
Proof.
  split.
  - intros Hlt. unfold contextmenu, handleRightClick.
    destruct (Nat.ltb_spec (List.length (Drawing.drawingPoints (App.map a))) 3);
      [|lia].
    now rewrite orb_true_r.
  - intros p1 p2 p3 Hon Hfresh a3.
    assert (Hpts : Drawing.drawingPoints (App.map a3) = [p1; p2; p3]).
    { unfold a3, click; simpl. rewrite Hfresh, Hon. reflexivity. }
    assert (Hon3 : Dashboard.isDrawing (App.dashboard a3) = true) by exact Hon.
    split; [exact Hpts|].
    rewrite (contextmenu_completes now a3 Hon3) by (rewrite Hpts; simpl; lia).
    rewrite Hpts. simpl. repeat split; reflexivity.
Qed.

Lemma contextmenu_needs_three_points_witness :
  let range := TimeRange.mk 0%Z 86400000%Z in
  let a := onStartDrawing (App.mk (initial range) cleared) in
  contextmenu 1700000000000%Z (click (0, 1)%Q (click (0, 0)%Q a))
  = click (0, 1)%Q (click (0, 0)%Q a)
  /\ Dashboard.polygons
       (App.dashboard
          (contextmenu 1700000000000%Z
             (click (1, 1)%Q (click (0, 1)%Q (click (0, 0)%Q a)))))
     = [Polygon.mk "polygon-1700000000000" [(0, 0); (0, 1); (1, 1)]%Q
          neutral undefined "temperature_2m"].
Proof.
  intros range a. split.
  - apply (proj1 (contextmenu_needs_three_points 1700000000000%Z
                    (click (0, 1)%Q (click (0, 0)%Q a)))).
    simpl. lia.
  - destruct (proj2 (contextmenu_needs_three_points 1700000000000%Z a)
                (0, 0)%Q (0, 1)%Q (1, 1)%Q eq_refl eq_refl)
      as (_ & Hpolys & _).
    exact Hpolys.
Defined.

(** ** Polygon store *)

Lemma filter_nothing_to_remove (polygonId : string) (ps : list Polygon.t) :
  ~ In polygonId (map Polygon.id ps) ->
  filter (fun p => negb (String.eqb (Polygon.id p) polygonId)) ps = ps.
Proof.
  induction ps as [|p ps IH]; simpl; intros Hout; trivial.
  destruct (String.eqb_spec (Polygon.id p) polygonId) as [E|_]; simpl.
  - exfalso. apply Hout. now left.
  - f_equal. apply IH. intros Hin. apply Hout. now right.
Qed.

(** C7. Deleting by identifier keeps exactly the polygons with another
    identifier; a store in which one polygon has the identifier loses that
    polygon and keeps the rest in order; with no such polygon the state is
    unchanged; and committing to the empty store, then deleting the
    identifier just assigned, leaves the store empty. *)
Theorem handleDeletePolygon_removes_or_keeps (polygonId : string) (s : Dashboard.t) :
  (forall p, In p (Dashboard.polygons (handleDeletePolygon polygonId s))
             <-> In p (Dashboard.polygons s) /\ Polygon.id p <> polygonId)
  /\ (forall before p after,
        Dashboard.polygons s = before ++ p :: after ->
        Polygon.id p = polygonId ->
        ~ In polygonId (map Polygon.id (before ++ after)) ->
        Dashboard.polygons (handleDeletePolygon polygonId s) = before ++ after)
  /\ (~ In polygonId (map Polygon.id (Dashboard.polygons s)) ->
      handleDeletePolygon polygonId s = s)
  /\ (forall now coordinates range,
        Dashboard.polygons
          (handleDeletePolygon (polygon_id now)
             (handlePolygonComplete now coordinates (initial range))) = []).
Proof.
  split; [|split; [|split]].
  - intros p. simpl. rewrite filter_In, negb_true_iff.
    destruct (String.eqb_spec (Polygon.id p) polygonId); intuition congruence.
  - intros before p after E Hid Hout. simpl. rewrite E.
    rewrite map_app, in_app_iff in Hout.
    rewrite filter_app; simpl.
    rewrite Hid, String.eqb_refl; simpl.
    rewrite !filter_nothing_to_remove; tauto.
  - intros Hout. destruct s as [ps d sel range fl].
    unfold handleDeletePolygon; simpl in *.
    now rewrite filter_nothing_to_remove.
  - intros now coordinates range. simpl.
    now rewrite String.eqb_refl.
Qed.

Lemma handleDeletePolygon_removes_or_keeps_witness :
  let s := handlePolygonComplete 1700000000000%Z [(0, 0); (0, 1); (1, 1)]%Q
             (initial (TimeRange.mk 0%Z 86400000%Z)) in
  handleDeletePolygon "polygon-42" s = s
  /\ Dashboard.polygons (handleDeletePolygon "polygon-1700000000000" s) = [].
Proof.
  intros s.
  destruct (handleDeletePolygon_removes_or_keeps "polygon-42" s)
    as (_ & _ & Hkeep & _).
  destruct (handleDeletePolygon_removes_or_keeps "polygon-1700000000000" s)
    as (_ & Hdrop & _ & _).
  split.
  - apply Hkeep. simpl. intros [H | []]. discriminate H.
  - apply (Hdrop [] (newPolygon 1700000000000%Z [(0, 0); (0, 1); (1, 1)]%Q
                       "temperature_2m") []).
    + reflexivity.
    + reflexivity.
    + simpl. tauto.
Defined.

Lemma Z_to_int_proper (z : Z) :
  Z.to_int z <> Decimal.Pos Decimal.Nil /\ Z.to_int z <> Decimal.Neg Decimal.Nil.
Proof.
  destruct z as [|p|p]; simpl; split; try discriminate;
    intros H; injection H as H; exact (DecimalPos.Unsigned.to_uint_nonnil p H).
Qed.

(** Identifiers of different clock readings differ. *)
Lemma polygon_id_inj (now now' : Z) :
  polygon_id now = polygon_id now' -> now = now'.
Proof.
  unfold polygon_id. intros H.
  apply (f_equal (fun s => substring 8 (String.length s - 8) s)) in H.
  assert (Hsub : forall t, substring 8 (String.length ("polygon-" ++ t) - 8)
                             ("polygon-" ++ t) = t).
  { intros t. simpl. rewrite Nat.sub_0_r.
    induction t as [|c t IH]; simpl; [reflexivity|]. now rewrite IH. }
  rewrite !Hsub in H.
  apply DecimalZ.to_int_inj.
  destruct (Z_to_int_proper now) as [Hp Hn].
  destruct (Z_to_int_proper now') as [Hp' Hn'].
  pose proof (NilZero.isi (Z.to_int now) Hp Hn) as E.
  pose proof (NilZero.isi (Z.to_int now') Hp' Hn') as E'.
  rewrite H in E. rewrite E in E'. now injection E'.
Qed.

Lemma commits_snoc (log : list (Z * list coord)) (e : Z * list coord)
    (s : Dashboard.t) :
  commits (log ++ [e]) s = handlePolygonComplete (fst e) (snd e) (commits log s).
Proof. unfold commits. now rewrite fold_left_app. Qed.

Lemma commits_identifiers (log : list (Z * list coord)) (range : TimeRange.t) :
  map Polygon.id (Dashboard.polygons (commits log (initial range)))
  = map polygon_id (map fst log).
Proof.
  induction log as [|e log IH] using rev_ind; [reflexivity|].
  rewrite commits_snoc; simpl.
  now rewrite !map_app, IH.
Qed.

Lemma NoDup_map_polygon_id (readings : list Z) :
  NoDup readings -> NoDup (map polygon_id readings).
Proof.
  induction 1 as [|now readings Hfresh _ IH]; simpl; constructor; trivial.
  intros Hin. apply in_map_iff in Hin. destruct Hin as (now' & E & Hin').
  apply polygon_id_inj in E. now subst.
Qed.

(** C4, the claim fails: two commits that read the same clock value get the
    same identifier, so the second identifier is already in the store. *)
Lemma same_clock_reading_same_identifier :
  let s1 := handlePolygonComplete 1700000000000%Z [(0, 0); (0, 1); (1, 1)]%Q
              (initial (TimeRange.mk 0%Z 86400000%Z)) in
  let s2 := handlePolygonComplete 1700000000000%Z [(5, 5); (5, 6); (6, 6)]%Q s1 in
  In (polygon_id 1700000000000%Z) (map Polygon.id (Dashboard.polygons s1))
  /\ map Polygon.id (Dashboard.polygons s2)
     = ["polygon-1700000000000"; "polygon-1700000000000"]
  /\ ~ NoDup (map Polygon.id (Dashboard.polygons s2)).
Proof.
  intros s1 s2. split; [now left|]. split; [reflexivity|].
  intros Hnd. simpl in Hnd. inversion Hnd as [|x l Hnotin _]; subst.
  apply Hnotin. now left.
Qed.

(** C4, amended. A commit names the polygon ["polygon-"] followed by the
    clock reading, creates it with no value and the neutral color, and
    appends it at the end of the collection; the identifier is kept by the
    pending first fetch (the handler returns nothing); identifiers of
    different clock readings differ, so commits at pairwise distinct clock
    readings give pairwise distinct identifiers. *)
Theorem handlePolygonComplete_appends_clock_named (now : Z)
    (coordinates : list coord) (s : Dashboard.t) :
  Dashboard.polygons (handlePolygonComplete now coordinates s)
  = Dashboard.polygons s
      ++ [Polygon.mk (polygon_id now) coordinates neutral undefined
            (Dashboard.selectedDataSource s)]
  /\ Dashboard.inflight (handlePolygonComplete now coordinates s)
     = Dashboard.inflight s
         ++ [first_fetch (polygon_id now) coordinates
               (Dashboard.selectedDataSource s) (Dashboard.timeRange s)]
  /\ (forall now', now' <> now -> polygon_id now' <> polygon_id now)
  /\ (forall log range,
        NoDup (map fst log) ->
        NoDup (map Polygon.id (Dashboard.polygons (commits log (initial range))))).
Proof.
  split; [reflexivity|]. split; [reflexivity|]. split.
  - intros now' Hneq E. apply Hneq. now apply polygon_id_inj.
  - intros log range Hnd. rewrite commits_identifiers.
    now apply NoDup_map_polygon_id.
Qed.

Lemma handlePolygonComplete_appends_clock_named_witness :
  NoDup [1700000000000%Z; 1700000000001%Z]
  /\ NoDup (map Polygon.id
              (Dashboard.polygons
                 (commits [ (1700000000000%Z, [(0, 0); (0, 1); (1, 1)]%Q);
                            (1700000000001%Z, [(5, 5); (5, 6); (6, 6)]%Q) ]
                    (initial (TimeRange.mk 0%Z 86400000%Z))))).
Proof.
  assert (Hnd : NoDup [1700000000000%Z; 1700000000001%Z]).
  { constructor; [simpl; intros [H | []]; discriminate H|].
    constructor; [simpl; tauto | constructor]. }
  split; [exact Hnd|].
  destruct (handlePolygonComplete_appends_clock_named 0%Z [] 
              (initial (TimeRange.mk 0%Z 86400000%Z))) as (_ & _ & _ & Hall).
  apply (Hall [ (1700000000000%Z, [(0, 0); (0, 1); (1, 1)]%Q);
                (1700000000001%Z, [(5, 5); (5, 6); (6, 6)]%Q) ]).
  exact Hnd.
Defined.

(** ** Centroid *)

Lemma fold_left_sum {A} (f : A -> Q) (l : list A) (a : Q) :
  (fold_left (fun sum c => sum + f c) l a == a + fold_right Qplus 0 (map f l))%Q.
Proof.
  revert a. induction l as [|x l IH]; intros a; simpl.
  - ring.
  - rewrite IH. ring.
Qed.

Lemma color_of_value_total (value : maybe_number) (selected : string) :
  exists c, color_of_value value selected = Normal c.
Proof.
  destruct value; simpl; try apply getColorForValue_total. now exists neutral.
Qed.

Lemma refreshed_total fetch (selected : string) (range : TimeRange.t)
    (p : Polygon.t) :
  exists color,
    color_of_value
      (fetch selected (fst (centroid (Polygon.coordinates p)))
         (snd (centroid (Polygon.coordinates p)))
         (TimeRange.start range) (TimeRange.end_ range)) selected
    = Normal color
    /\ refreshed fetch selected range p
       = Normal (Polygon.mk (Polygon.id p) (Polygon.coordinates p) color
                   (fetch selected (fst (centroid (Polygon.coordinates p)))
                      (snd (centroid (Polygon.coordinates p)))
                      (TimeRange.start range) (TimeRange.end_ range))
                   selected).
Proof.
  unfold refreshed.
  destruct (centroid (Polygon.coordinates p)) as [lat lon]; simpl.
  destruct (color_of_value_total
              (fetch selected lat lon (TimeRange.start range)
                 (TimeRange.end_ range)) selected) as [c Hc].
  exists c. split; [exact Hc|]. now rewrite Hc.
Qed.

Section CentroidOnDoubles.
Import PrimFloat.









End CentroidOnDoubles.

(** ** [fetchWeatherData] *)

(** The latitude that [clampedLat] holds lies in [-90, 90] and is the input
    when the input lies there. *)
Lemma clamp_latitude_finite (lat : Q) :
  exists c, clamp_latitude (Fin lat) = Fin c
            /\ (-90 <= c)%Q /\ (c <= 90)%Q
            /\ ((-90 <= lat)%Q -> (lat <= 90)%Q -> (c == lat)%Q).
Proof.
  unfold clamp_latitude, Math_min, Math_max, num_lt.
  destruct (Qle_bool 90 lat) eqn:Hhi; simpl.
  - apply Qle_bool_iff in Hhi.
    exists 90%Q. split; [reflexivity|].
    split; [now compute|]. split; [apply Qle_refl|].
    intros _ Hle. now apply Qle_antisym.
  - assert (Hlt : (lat < 90)%Q).
    { apply Qnot_le_lt. intros H. apply Qle_bool_iff in H. congruence. }
    destruct (Qle_bool lat (-90)) eqn:Hlo; simpl.
    + apply Qle_bool_iff in Hlo.
      exists (-90)%Q. split; [reflexivity|].
      split; [apply Qle_refl|]. split; [now compute|].
      intros Hge _. now apply Qle_antisym.
    + assert (Hgt : (-90 < lat)%Q).
      { apply Qnot_le_lt. intros H. apply Qle_bool_iff in H. congruence. }
      exists lat. split; [reflexivity|].
      split; [now apply Qlt_le_weak|]. split; [now apply Qlt_le_weak|].
      intros _ _. reflexivity.
Qed.

(** C2, what the code does. No declaration binds [clampedLon]: reading it
    raises before [fetch] is called, the [catch] block returns [null], and
    no request (so no longitude, clamped or not) is ever sent. *)
Theorem fetchWeatherData_reads_unbound_clampedLon (world : api)
    (selectedDataSource : string) (lat lon : number) (startTime endTime : Date) :
  resolve_identifier "clampedLon"
    (fetch_scope selectedDataSource lat lon startTime endTime)
  = Throw (ReferenceError "clampedLon")
  /\ request_url (fetch_scope selectedDataSource lat lon startTime endTime)
     = Throw (ReferenceError "clampedLon")
  /\ fetchWeatherData world selectedDataSource lat lon startTime endTime
     = ([], null).
Proof. repeat split. Qed.

(** As wired, every polygon of a recompute ends with no value and the
    neutral color. *)
Lemma wired_refreshed (world : api) (selected : string) (range : TimeRange.t)
    (p : Polygon.t) :
  refreshed (wired_fetch world) selected range p
  = Normal (Polygon.mk (Polygon.id p) (Polygon.coordinates p) neutral null
              selected).
Proof.
  unfold refreshed. now destruct (centroid (Polygon.coordinates p)).
Qed.

Lemma validValues_length (values : list sample) :
  List.length (validValues values) <= List.length values.
Proof.
  induction values as [|[| |q] values IH]; simpl; lia.
Qed.

(** Every failure is turned into [null] by the [try]/[catch]. *)
Lemma failed_fetch_is_null (selected : string) (r : fetch_outcome) :
  failed selected r -> catch_null (read_series selected r) = null.
Proof.
  destruct 1 as [ |body| | |entries E|entries E|entries E]; simpl;
    try reflexivity; try (destruct body as [|[|]]; reflexivity);
    now rewrite E.
Qed.

(** In exact arithmetic, a series whose samples are numbers or [null]
    resolves to the mean of the samples that are numbers, or to [null] when
    none is. *)
Lemma series_average (selected : string) (entries : string -> hourly_entry)
    (values : list sample) :
  entries selected = entry_array values ->
  (validValues values = [] ->
   catch_null (read_series selected
                 (response true (body_json (payload_hourly entries)))) = null)
  /\ (validValues values <> [] ->
      exists m,
        catch_null (read_series selected
                      (response true (body_json (payload_hourly entries))))
        = num (Fin m)
        /\ (m == arithmetic_mean (validValues values))%Q).
Proof.
  intros E. simpl. rewrite E. split.
  - intros Hnone. rewrite Hnone.
    now destruct (Nat.eqb (List.length values) 0).
  - intros Hsome.
    destruct values as [|v values]; [now elim Hsome|]. simpl Nat.eqb. cbv iota.
    destruct (validValues (v :: values)) as [|q valid]; [now elim Hsome|].
    simpl Nat.ltb. cbv iota. simpl catch_null.
    eexists. split; [reflexivity|].
    unfold arithmetic_mean.
    apply Qmult_comp; [|reflexivity].
    rewrite (fold_left_sum (fun x => x) (q :: valid) 0).
    rewrite map_id. ring.
Qed.

Lemma map_all_throws {A B} (f : A -> completion B) (before : list A) (x : A)
    (after : list A) (e : error) :
  f x = Throw e ->
  exists e', map_all f (before ++ x :: after) = Throw e'.
Proof.
  intros Hx. induction before as [|y before IH]; simpl.
  - rewrite Hx. now exists e.
  - destruct (f y) as [v|e0]; simpl; [|now exists e0].
    destruct IH as [e' ->]. now exists e'.
Qed.

(** C9, what the code does. A failed fetch resolves to [null] and the
    polygon gets the neutral color, as claimed; but the value row of the
    polygons tab tests the value against [undefined] only, so it calls
    [toFixed] on [null] and rendering the tab raises, whereas the map popup,
    which tests against both, shows the placeholder. *)
Theorem failed_fetch_breaks_the_polygons_tab (selected : string)
    (r : fetch_outcome) fetch (range : TimeRange.t) (p : Polygon.t) :
  failed selected r ->
  fetch selected (fst (centroid (Polygon.coordinates p)))
    (snd (centroid (Polygon.coordinates p)))
    (TimeRange.start range) (TimeRange.end_ range)
  = catch_null (read_series selected r) ->
  exists updated,
    refreshed fetch selected range p = Normal updated
    /\ Polygon.value updated = null
    /\ Polygon.color updated = neutral
    /\ popup_value updated = Normal loading
    /\ panel_value_row updated = Throw TypeError
    /\ (forall before after,
          exists e, render_polygons_tab (before ++ updated :: after) = Throw e).
Proof.
  intros Hfail Hfetch.
  rewrite (failed_fetch_is_null selected r Hfail) in Hfetch.
  destruct (refreshed_total fetch selected range p) as (c & Hc & E).
  rewrite Hfetch in Hc, E. simpl in Hc. injection Hc as <-.
  eexists. split; [exact E|].
  repeat split.
  intros before after. now apply map_all_throws with (e := TypeError).
Qed.

Lemma failed_fetch_breaks_the_polygons_tab_witness :
  let p := Polygon.mk "polygon-1700000000000" [(0, 0); (0, 2); (2, 2)]%Q
             neutral undefined "temperature_2m" in
  failed "temperature_2m" network_error
  /\ exists updated,
       refreshed (fun _ _ _ _ _ => null) "temperature_2m"
         (TimeRange.mk 0%Z 86400000%Z) p = Normal updated
       /\ Polygon.value updated = null
       /\ render_polygons_tab [updated] = Throw TypeError.
Proof.
  intros p. split; [constructor|].
  destruct (failed_fetch_breaks_the_polygons_tab "temperature_2m" network_error
              (fun _ _ _ _ _ => null) (TimeRange.mk 0%Z 86400000%Z) p
              (failed_network "temperature_2m") eq_refl)
    as (updated & E & Hv & _ & _ & Hrow & _).
  exists updated. split; [exact E|]. split; [exact Hv|].
  unfold render_polygons_tab. cbn [map_all]. rewrite Hrow. reflexivity.
Defined.

(** ** Recompute coordinator *)

Lemma map_all_refreshed fetch (selected : string) (range : TimeRange.t)
    (snapshot : list Polygon.t) :
  exists updated,
    map_all (refreshed fetch selected range) snapshot = Normal updated
    /\ Forall2 (derived_from fetch selected range) snapshot updated.
Proof.
  induction snapshot as [|p snapshot (updated & E & Hall)]; simpl.
  - exists []. split; [reflexivity | constructor].
  - destruct (refreshed_total fetch selected range p) as (c & Hc & Ep).
    rewrite Ep, E; simpl. eexists. split; [reflexivity|].
    constructor; [|exact Hall].
    repeat split; trivial.
Qed.





(** ** Further properties of the store and the coordinator *)

Lemma refreshed_keeps_identity fetch (selected : string) (range : TimeRange.t)
    (snapshot updated : list Polygon.t) :
  Forall2 (derived_from fetch selected range) snapshot updated ->
  map Polygon.id updated = map Polygon.id snapshot
  /\ map Polygon.coordinates updated = map Polygon.coordinates snapshot.
Proof.
  induction 1 as [|p p' snapshot updated (Hid & Hco & _) _ [IHid IHco]]; simpl.
  - now split.
  - now rewrite Hid, Hco, IHid, IHco.
Qed.

Lemma patch_keeps_identity (polygonId : string) (value : maybe_number)
    (color selected : string) (ps : list Polygon.t) :
  map Polygon.id (map (patch polygonId value color selected) ps)
  = map Polygon.id ps
  /\ map Polygon.coordinates (map (patch polygonId value color selected) ps)
     = map Polygon.coordinates ps.
Proof.
  rewrite !map_map. split; apply map_ext; intros p; unfold patch;
    now destruct (String.eqb (Polygon.id p) polygonId).
Qed.

Lemma continuation_frame fetch (t : task) (s : Dashboard.t) :
  Dashboard.isDrawing (continuation fetch t s) = Dashboard.isDrawing s
  /\ Dashboard.selectedDataSource (continuation fetch t s)
     = Dashboard.selectedDataSource s
  /\ Dashboard.timeRange (continuation fetch t s) = Dashboard.timeRange s
  /\ Dashboard.inflight (continuation fetch t s) = Dashboard.inflight s.
Proof.
  destruct t as [snapshot selected range | polygonId coordinates selected range];
    simpl.
  - destruct (map_all _ snapshot); simpl; auto.
  - destruct (centroid coordinates) as [lat lon].
    destruct (color_of_value _ selected); simpl; auto.
Qed.

Lemma resolve_frame fetch (k : nat) (s : Dashboard.t) :
  Dashboard.isDrawing (resolve fetch k s) = Dashboard.isDrawing s
  /\ Dashboard.selectedDataSource (resolve fetch k s)
     = Dashboard.selectedDataSource s
  /\ Dashboard.timeRange (resolve fetch k s) = Dashboard.timeRange s.
Proof.
  unfold resolve. destruct (nth_error (Dashboard.inflight s) k) as [t|]; auto.
  destruct (continuation_frame fetch t (without_task k s)) as (H1 & H2 & H3 & _).
  now rewrite H1, H2, H3.
Qed.

Lemma first_fetch_polygons fetch (polygonId : string) (coordinates : list coord)
    (selected : string) (range : TimeRange.t) (s : Dashboard.t) :
  exists color,
    color_of_value
      (fetch selected (fst (centroid coordinates)) (snd (centroid coordinates))
         (TimeRange.start range) (TimeRange.end_ range)) selected
    = Normal color
    /\ Dashboard.polygons
         (continuation fetch (first_fetch polygonId coordinates selected range) s)
       = map (patch polygonId
                (fetch selected (fst (centroid coordinates))
                   (snd (centroid coordinates))
                   (TimeRange.start range) (TimeRange.end_ range))
                color selected)
           (Dashboard.polygons s).
Proof.
  cbn [continuation]. destruct (centroid coordinates) as [lat lon]; simpl.
  destruct (color_of_value_total
              (fetch selected lat lon (TimeRange.start range)
                 (TimeRange.end_ range)) selected) as [c Hc].
  exists c. split; [exact Hc|]. now rewrite Hc.
Qed.

Lemma patch_no_match (polygonId : string) (value : maybe_number)
    (color selected : string) (ps : list Polygon.t) :
  ~ In polygonId (map Polygon.id ps) ->
  map (patch polygonId value color selected) ps = ps.
Proof.
  induction ps as [|p ps IH]; simpl; intros Hout; trivial.
  unfold patch at 1.
  destruct (String.eqb_spec (Polygon.id p) polygonId) as [E|_].
  - exfalso. apply Hout. now left.
  - f_equal. apply IH. intros Hin. apply Hout. now right.
Qed.

(** X1. When the first fetch of a polygon settles, the collection keeps its
    polygons, their coordinates and their order: only polygons carrying the
    identifier get the fetched value, its color and the variable, and when
    the polygon has been deleted meanwhile the collection is left as it is. *)
Theorem first_fetch_settles_in_place fetch (k : nat) (s : Dashboard.t)
    (polygonId : string) (coordinates : list coord) (selected : string)
    (range : TimeRange.t) :
  nth_error (Dashboard.inflight s) k
  = Some (first_fetch polygonId coordinates selected range) ->
  let s' := resolve fetch k s in
  map Polygon.id (Dashboard.polygons s') = map Polygon.id (Dashboard.polygons s)
  /\ map Polygon.coordinates (Dashboard.polygons s')
     = map Polygon.coordinates (Dashboard.polygons s)
  /\ (forall i p, nth_error (Dashboard.polygons s) i = Some p ->
                  Polygon.id p <> polygonId ->
                  nth_error (Dashboard.polygons s') i = Some p)
  /\ (forall i p, nth_error (Dashboard.polygons s) i = Some p ->
                  Polygon.id p = polygonId ->
                  exists p',
                    nth_error (Dashboard.polygons s') i = Some p'
                    /\ Polygon.dataSource p' = selected
                    /\ Polygon.value p'
                       = fetch selected (fst (centroid coordinates))
                           (snd (centroid coordinates))
                           (TimeRange.start range) (TimeRange.end_ range)
                    /\ color_of_value (Polygon.value p') selected
                       = Normal (Polygon.color p'))
  /\ (~ In polygonId (map Polygon.id (Dashboard.polygons s)) ->
      Dashboard.polygons s' = Dashboard.polygons s).
Proof.
  intros Hk s'. unfold s', resolve. rewrite Hk.
  destruct (first_fetch_polygons fetch polygonId coordinates selected range
              (without_task k s)) as (c & Hc & ->).
  cbn [without_task Dashboard.polygons].
  destruct (patch_keeps_identity polygonId
              (fetch selected (fst (centroid coordinates))
                 (snd (centroid coordinates)) (TimeRange.start range)
                 (TimeRange.end_ range)) c selected (Dashboard.polygons s))
    as [Hid Hco].
  split; [exact Hid|]. split; [exact Hco|]. split; [|split].
  - intros i p Hi Hne. rewrite nth_error_map, Hi; simpl. unfold patch.
    destruct (String.eqb_spec (Polygon.id p) polygonId); [contradiction|reflexivity].
  - intros i p Hi He. rewrite nth_error_map, Hi; simpl. unfold patch.
    rewrite He, String.eqb_refl. eexists. split; [reflexivity|].
    simpl. auto.
  - apply patch_no_match.
Qed.

Lemma first_fetch_settles_in_place_witness :
  let s := handleDeletePolygon "polygon-1700000000000"
             (handlePolygonComplete 1700000000001%Z [(5, 5); (5, 6); (6, 6)]%Q
                (handlePolygonComplete 1700000000000%Z
                   [(0, 0); (0, 2); (2, 2)]%Q
                   (initial (TimeRange.mk 0%Z 86400000%Z)))) in
  nth_error (Dashboard.inflight s) 0
  = Some (first_fetch "polygon-1700000000000" [(0, 0); (0, 2); (2, 2)]%Q
            "temperature_2m" (TimeRange.mk 0%Z 86400000%Z))
  /\ Dashboard.polygons (resolve steady_source 0 s) = Dashboard.polygons s.
Proof.
  intros s.
  assert (Hk : nth_error (Dashboard.inflight s) 0
               = Some (first_fetch "polygon-1700000000000"
                         [(0, 0); (0, 2); (2, 2)]%Q
                         "temperature_2m" (TimeRange.mk 0%Z 86400000%Z)))
    by reflexivity.
  split; [exact Hk|].
  destruct (first_fetch_settles_in_place steady_source 0 s
              "polygon-1700000000000" [(0, 0); (0, 2); (2, 2)]%Q
              "temperature_2m" (TimeRange.mk 0%Z 86400000%Z) Hk)
    as (_ & _ & _ & _ & Hgone).
  apply Hgone. simpl. intros [H | []]. discriminate H.
Defined.

Lemma resolve_recompute fetch (k : nat) (s : Dashboard.t)
    (snapshot : list Polygon.t) (selected : string) (range : TimeRange.t) :
  nth_error (Dashboard.inflight s) k = Some (recompute snapshot selected range) ->
  map_all (refreshed fetch selected range) snapshot
  = Normal (Dashboard.polygons (resolve fetch k s))
  /\ Forall2 (derived_from fetch selected range) snapshot
       (Dashboard.polygons (resolve fetch k s))
  /\ Dashboard.inflight (resolve fetch k s) = remove_nth k (Dashboard.inflight s).
Proof.
  intros Hk. unfold resolve. rewrite Hk. cbn [continuation].
  destruct (map_all_refreshed fetch selected range snapshot)
    as (updated & E & Hall).
  rewrite E. simpl. auto.
Qed.

Lemma nth_error_snoc {A} (l : list A) (x : A) :
  nth_error (l ++ [x]) (List.length l) = Some x.
Proof.
  rewrite nth_error_app2 by lia. now rewrite Nat.sub_diag.
Qed.

Lemma nth_error_snoc_before {A} (l : list A) (x y : A) :
  nth_error ((l ++ [x]) ++ [y]) (List.length l) = Some x.
Proof.
  rewrite nth_error_app1 by (rewrite length_app; simpl; lia).
  apply nth_error_snoc.
Qed.

Lemma onRangeChange_issues (range : TimeRange.t) (s : Dashboard.t) :
  Dashboard.polygons s <> [] ->
  onRangeChange range s
  = Dashboard.mk (Dashboard.polygons s) (Dashboard.isDrawing s)
      (Dashboard.selectedDataSource s) range
      (Dashboard.inflight s
         ++ [recompute (Dashboard.polygons s) (Dashboard.selectedDataSource s)
               range]).
Proof.
  intros Hne. unfold onRangeChange, recompute_effect. simpl.
  destruct (Dashboard.polygons s) as [|p ps]; [congruence|reflexivity].
Qed.

(** X2. A recompute that resumes brings back the membership of the
    collection as it was when the recompute was issued: a polygon committed
    since is dropped from the collection, and a polygon deleted since is
    back in it. *)
Theorem recompute_forgets_later_changes fetch (s : Dashboard.t)
    (range : TimeRange.t) :
  Dashboard.polygons s <> [] ->
  let issued := onRangeChange range s in
  let k := List.length (Dashboard.inflight s) in
  (forall now coordinates,
      map Polygon.id
        (Dashboard.polygons
           (resolve fetch k (handlePolygonComplete now coordinates issued)))
      = map Polygon.id (Dashboard.polygons s))
  /\ (forall polygonId,
        map Polygon.id
          (Dashboard.polygons
             (resolve fetch k (handleDeletePolygon polygonId issued)))
        = map Polygon.id (Dashboard.polygons s)).
Proof.
  intros Hne issued k. unfold issued, k.
  rewrite (onRangeChange_issues range s Hne).
  split.
  - intros now coordinates.
    destruct (resolve_recompute fetch (List.length (Dashboard.inflight s))
                (handlePolygonComplete now coordinates
                   (Dashboard.mk (Dashboard.polygons s) (Dashboard.isDrawing s)
                      (Dashboard.selectedDataSource s) range
                      (Dashboard.inflight s
                         ++ [recompute (Dashboard.polygons s)
                               (Dashboard.selectedDataSource s) range])))
                (Dashboard.polygons s) (Dashboard.selectedDataSource s) range)
      as (_ & Hall & _).
    { simpl. apply nth_error_snoc_before. }
    exact (proj1 (refreshed_keeps_identity _ _ _ _ _ Hall)).
  - intros polygonId.
    destruct (resolve_recompute fetch (List.length (Dashboard.inflight s))
                (handleDeletePolygon polygonId
                   (Dashboard.mk (Dashboard.polygons s) (Dashboard.isDrawing s)
                      (Dashboard.selectedDataSource s) range
                      (Dashboard.inflight s
                         ++ [recompute (Dashboard.polygons s)
                               (Dashboard.selectedDataSource s) range])))
                (Dashboard.polygons s) (Dashboard.selectedDataSource s) range)
      as (_ & Hall & _).
    { simpl. apply nth_error_snoc. }
    exact (proj1 (refreshed_keeps_identity _ _ _ _ _ Hall)).
Qed.

Lemma recompute_forgets_later_changes_witness :
  let s := resolve steady_source 0
             (handlePolygonComplete 1700000000000%Z [(0, 0); (0, 2); (2, 2)]%Q
                (initial (TimeRange.mk 0%Z 86400000%Z))) in
  let issued := onRangeChange (TimeRange.mk 3600000%Z 86400000%Z) s in
  Dashboard.polygons s <> []
  /\ map Polygon.id
       (Dashboard.polygons
          (resolve steady_source 0
             (handlePolygonComplete 1700000000500%Z [(5, 5); (5, 6); (6, 6)]%Q
                issued)))
     = ["polygon-1700000000000"]
  /\ map Polygon.id
       (Dashboard.polygons
          (resolve steady_source 0
             (handleDeletePolygon "polygon-1700000000000" issued)))
     = ["polygon-1700000000000"].
Proof.
  intros s issued.
  assert (Hne : Dashboard.polygons s <> []) by discriminate.
  split; [exact Hne|].
  destruct (recompute_forgets_later_changes steady_source s
              (TimeRange.mk 3600000%Z 86400000%Z) Hne) as [Hcommit Hdelete].
  split.
  - exact (Hcommit 1700000000500%Z [(5, 5); (5, 6); (6, 6)]%Q).
  - exact (Hdelete "polygon-1700000000000").
Defined.

Lemma refreshed_again fetch (selected : string) (range : TimeRange.t)
    (p p' : Polygon.t) :
  refreshed fetch selected range p = Normal p' ->
  refreshed fetch selected range p' = Normal p'.
Proof.
  intros E.
  destruct (refreshed_total fetch selected range p) as (c & Hc & E1).
  rewrite E1 in E. injection E as <-.
  destruct (refreshed_total fetch selected range
              (Polygon.mk (Polygon.id p) (Polygon.coordinates p) c
                 (fetch selected (fst (centroid (Polygon.coordinates p)))
                    (snd (centroid (Polygon.coordinates p)))
                    (TimeRange.start range) (TimeRange.end_ range)) selected))
    as (c' & Hc' & E2).
  cbn [Polygon.id Polygon.coordinates] in Hc', E2.
  rewrite Hc in Hc'. injection Hc' as <-. exact E2.
Qed.

Lemma map_all_refreshed_again fetch (selected : string) (range : TimeRange.t)
    (snapshot updated : list Polygon.t) :
  map_all (refreshed fetch selected range) snapshot = Normal updated ->
  map_all (refreshed fetch selected range) updated = Normal updated.
Proof.
  revert updated. induction snapshot as [|p snapshot IH]; simpl; intros updated E.
  - now injection E as <-.
  - destruct (refreshed fetch selected range p) as [p'|] eqn:Ep; [|discriminate].
    simpl in E.
    destruct (map_all (refreshed fetch selected range) snapshot) as [ps|];
      [|discriminate].
    simpl in E. injection E as <-. simpl.
    rewrite (refreshed_again fetch selected range p p' Ep); simpl.
    now rewrite (IH ps eq_refl).
Qed.

(** X3. Recomputing twice for the same selection and range, each recompute
    resuming before the next event, gives the collection of the first
    recompute again. *)
Theorem recompute_twice_is_recompute_once fetch (s : Dashboard.t) :
  let range := Dashboard.timeRange s in
  let once :=
    resolve fetch (List.length (Dashboard.inflight s)) (onRangeChange range s) in
  let twice :=
    resolve fetch (List.length (Dashboard.inflight once))
      (onRangeChange range once) in
  Dashboard.polygons twice = Dashboard.polygons once.
Proof.
  intros range once twice.
  destruct (Dashboard.polygons s) as [|p0 ps0] eqn:Hps.
  - assert (E1 : onRangeChange range s
                 = Dashboard.mk [] (Dashboard.isDrawing s)
                     (Dashboard.selectedDataSource s) range (Dashboard.inflight s)).
    { unfold onRangeChange, recompute_effect. simpl. now rewrite Hps. }
    assert (Honce : once = onRangeChange range s).
    { unfold once, resolve. rewrite E1. simpl.
      replace (nth_error (Dashboard.inflight s)
                 (List.length (Dashboard.inflight s))) with (@None task);
        [reflexivity|].
      symmetry. apply nth_error_None. lia. }
    unfold twice. rewrite Honce, E1.
    unfold onRangeChange, recompute_effect, resolve. simpl.
    replace (nth_error (Dashboard.inflight s)
               (List.length (Dashboard.inflight s))) with (@None task);
      [reflexivity|].
    symmetry. apply nth_error_None. lia.
  - assert (Hne : Dashboard.polygons s <> []) by (rewrite Hps; discriminate).
    destruct (resolve_recompute fetch (List.length (Dashboard.inflight s))
                (onRangeChange range s) (Dashboard.polygons s)
                (Dashboard.selectedDataSource s) range)
      as (E1 & Hall1 & Hfl1).
    { rewrite (onRangeChange_issues range s Hne). simpl. apply nth_error_snoc. }
    fold once in E1, Hall1, Hfl1.
    destruct (resolve_frame fetch (List.length (Dashboard.inflight s))
                (onRangeChange range s)) as (_ & Hsel & _).
    fold once in Hsel.
    assert (Hsel' : Dashboard.selectedDataSource once
                    = Dashboard.selectedDataSource s).
    { rewrite Hsel. now rewrite (onRangeChange_issues range s Hne). }
    assert (Hne1 : Dashboard.polygons once <> []).
    { intros E. pose proof (proj1 (refreshed_keeps_identity _ _ _ _ _ Hall1)) as Hid.
      rewrite E, Hps in Hid. discriminate Hid. }
    destruct (resolve_recompute fetch (List.length (Dashboard.inflight once))
                (onRangeChange range once) (Dashboard.polygons once)
                (Dashboard.selectedDataSource once) range)
      as (E2 & _ & _).
    { rewrite (onRangeChange_issues range once Hne1). simpl.
      apply nth_error_snoc. }
    fold twice in E2. rewrite Hsel' in E2.
    rewrite (map_all_refreshed_again fetch (Dashboard.selectedDataSource s)
               range (Dashboard.polygons s) (Dashboard.polygons once) E1) in E2.
    now injection E2.
Qed.

(** ** Invariants of the application *)

Lemma run_snoc fetch (events : list event) (e : event) (a : App.t) :
  run fetch (events ++ [e]) a = step fetch e (run fetch events a).
Proof. unfold run. now rewrite fold_left_app. Qed.

Lemma recompute_effect_frame (s : Dashboard.t) :
  Dashboard.polygons (recompute_effect s) = Dashboard.polygons s
  /\ Dashboard.isDrawing (recompute_effect s) = Dashboard.isDrawing s
  /\ (Dashboard.inflight (recompute_effect s) = Dashboard.inflight s
      \/ Dashboard.inflight (recompute_effect s)
         = Dashboard.inflight s
             ++ [recompute (Dashboard.polygons s)
                   (Dashboard.selectedDataSource s) (Dashboard.timeRange s)]).
Proof.
  unfold recompute_effect.
  destruct (Nat.ltb 0 (List.length (Dashboard.polygons s))); simpl; auto.
Qed.

Lemma onDataSourceChange_frame (dataSourceId : string) (s : Dashboard.t) :
  Dashboard.polygons (onDataSourceChange dataSourceId s) = Dashboard.polygons s
  /\ Dashboard.isDrawing (onDataSourceChange dataSourceId s)
     = Dashboard.isDrawing s
  /\ (Dashboard.inflight (onDataSourceChange dataSourceId s)
      = Dashboard.inflight s
      \/ Dashboard.inflight (onDataSourceChange dataSourceId s)
         = Dashboard.inflight s
             ++ [recompute (Dashboard.polygons s) dataSourceId
                   (Dashboard.timeRange s)]).
Proof.
  unfold onDataSourceChange.
  destruct (String.eqb dataSourceId (Dashboard.selectedDataSource s)); auto.
  apply (recompute_effect_frame
           (Dashboard.mk (Dashboard.polygons s) (Dashboard.isDrawing s)
              dataSourceId (Dashboard.timeRange s) (Dashboard.inflight s))).
Qed.

Lemma onRangeChange_frame (range : TimeRange.t) (s : Dashboard.t) :
  Dashboard.polygons (onRangeChange range s) = Dashboard.polygons s
  /\ Dashboard.isDrawing (onRangeChange range s) = Dashboard.isDrawing s
  /\ (Dashboard.inflight (onRangeChange range s) = Dashboard.inflight s
      \/ Dashboard.inflight (onRangeChange range s)
         = Dashboard.inflight s
             ++ [recompute (Dashboard.polygons s)
                   (Dashboard.selectedDataSource s) range]).
Proof.
  apply (recompute_effect_frame
           (Dashboard.mk (Dashboard.polygons s) (Dashboard.isDrawing s)
              (Dashboard.selectedDataSource s) range (Dashboard.inflight s))).
Qed.

Lemma derived_is_well_colored fetch (selected : string) (range : TimeRange.t)
    (snapshot updated : list Polygon.t) :
  Forall2 (derived_from fetch selected range) snapshot updated ->
  Forall well_colored updated.
Proof.
  induction 1 as [|p p' snapshot updated (_ & _ & Hds & _ & Hc) _ IH];
    constructor; trivial.
  right. now rewrite Hds.
Qed.

Lemma resolve_well_colored fetch (k : nat) (s : Dashboard.t) :
  Forall well_colored (Dashboard.polygons s) ->
  Forall well_colored (Dashboard.polygons (resolve fetch k s)).
Proof.
  intros Hall.
  destruct (nth_error (Dashboard.inflight s) k) as [t|] eqn:Hk.
  - destruct t as [snapshot selected range | polygonId coordinates selected range].
    + destruct (resolve_recompute fetch k s snapshot selected range Hk)
        as (_ & Hd & _).
      exact (derived_is_well_colored _ _ _ _ _ Hd).
    + unfold resolve. rewrite Hk.
      destruct (first_fetch_polygons fetch polygonId coordinates selected range
                  (without_task k s)) as (c & Hc & ->).
      cbn [without_task Dashboard.polygons].
      apply Forall_map. revert Hall. apply Forall_impl. intros p Hp.
      unfold patch. destruct (String.eqb (Polygon.id p) polygonId); trivial.
      right. exact Hc.
  - unfold resolve. now rewrite Hk.
Qed.

Lemma step_well_colored fetch (e : event) (a : App.t) :
  Forall well_colored (Dashboard.polygons (App.dashboard a)) ->
  Forall well_colored (Dashboard.polygons (App.dashboard (step fetch e a))).
Proof.
  intros Hall. destruct e as [|latlng|now|dataSourceId|polygonId|range|k];
    cbn [step on_dashboard App.dashboard].
  - unfold draw_button_click.
    now destruct (Dashboard.isDrawing (App.dashboard a)).
  - exact Hall.
  - unfold contextmenu.
    destruct (handleRightClick _ (App.map a)) as [[coordinates|] d]; trivial.
    simpl. apply Forall_app. split; trivial.
    constructor; [|constructor]. left. now split.
  - now rewrite (proj1 (onDataSourceChange_frame dataSourceId (App.dashboard a))).
  - simpl. now apply incl_Forall with (2 := Hall), incl_filter.
  - now rewrite (proj1 (onRangeChange_frame range (App.dashboard a))).
  - now apply resolve_well_colored.
Qed.

(** X4. Whatever the events and whatever the fetches resolve to, every
    polygon of the collection is colored from its own value and variable:
    neutral while it has no value yet, and otherwise the color the
    classifier gives its value under the variable recorded in the polygon
    (neutral for [null]). *)
Theorem polygons_stay_well_colored fetch (range : TimeRange.t)
    (events : list event) :
  Forall well_colored
    (Dashboard.polygons (App.dashboard (run fetch events (start range)))).
Proof.
  induction events as [|e events IH] using rev_ind.
  - constructor.
  - rewrite run_snoc. now apply step_well_colored.
Qed.

Lemma Forall_remove_nth {A} (P : A -> Prop) (k : nat) (l : list A) :
  Forall P l -> Forall P (remove_nth k l).
Proof.
  intros H. revert k. induction H as [|x l Hx Hl IH]; intros k.
  - destruct k; constructor.
  - destruct k; simpl; [assumption|]. constructor; auto.
Qed.

Lemma nth_error_Forall {A} (P : A -> Prop) (l : list A) (k : nat) (x : A) :
  Forall P l -> nth_error l k = Some x -> P x.
Proof.
  intros H Hk. rewrite Forall_forall in H. apply H.
  eapply nth_error_In; eauto.
Qed.

Lemma issue_shapes_ok (s : Dashboard.t) (fl : list task) (selected : string)
    (range : TimeRange.t) :
  shapes_ok s ->
  fl = Dashboard.inflight s
  \/ fl = Dashboard.inflight s ++ [recompute (Dashboard.polygons s) selected range] ->
  Forall (fun t => Forall drawable (task_shapes t)) fl.
Proof.
  intros [Hps Hfl] [-> | ->]; trivial.
  apply Forall_app. split; trivial. constructor; [exact Hps | constructor].
Qed.

Lemma onDataSourceChange_shapes (dataSourceId : string) (s : Dashboard.t) :
  shapes_ok s -> shapes_ok (onDataSourceChange dataSourceId s).
Proof.
  intros H. destruct (onDataSourceChange_frame dataSourceId s) as (Hp & _ & Hfl).
  split.
  - rewrite Hp. exact (proj1 H).
  - exact (issue_shapes_ok s _ _ _ H Hfl).
Qed.

Lemma onRangeChange_shapes (range : TimeRange.t) (s : Dashboard.t) :
  shapes_ok s -> shapes_ok (onRangeChange range s).
Proof.
  intros H. destruct (onRangeChange_frame range s) as (Hp & _ & Hfl).
  split.
  - rewrite Hp. exact (proj1 H).
  - exact (issue_shapes_ok s _ _ _ H Hfl).
Qed.

Lemma handleDeletePolygon_shapes (polygonId : string) (s : Dashboard.t) :
  shapes_ok s -> shapes_ok (handleDeletePolygon polygonId s).
Proof.
  intros [Hps Hfl]. split; [|exact Hfl]. simpl.
  rewrite Forall_map in *.
  now apply incl_Forall with (2 := Hps), incl_filter.
Qed.

Lemma resolve_shapes fetch (k : nat) (s : Dashboard.t) :
  shapes_ok s -> shapes_ok (resolve fetch k s).
Proof.
  intros [Hps Hfl].
  destruct (nth_error (Dashboard.inflight s) k) as [t|] eqn:Hk.
  - pose proof (nth_error_Forall _ _ _ _ Hfl Hk) as Ht.
    destruct t as [snapshot selected range | polygonId coordinates selected range].
    + destruct (resolve_recompute fetch k s snapshot selected range Hk)
        as (_ & Hd & Hrest).
      split.
      * rewrite (proj2 (refreshed_keeps_identity _ _ _ _ _ Hd)). exact Ht.
      * rewrite Hrest. now apply Forall_remove_nth.
    + unfold resolve. rewrite Hk.
      destruct (first_fetch_polygons fetch polygonId coordinates selected range
                  (without_task k s)) as (c & _ & E).
      destruct (continuation_frame fetch
                  (first_fetch polygonId coordinates selected range)
                  (without_task k s)) as (_ & _ & _ & Efl).
      split.
      * rewrite E. cbn [without_task Dashboard.polygons].
        now rewrite (proj2 (patch_keeps_identity _ _ _ _ _)).
      * rewrite Efl. simpl. now apply Forall_remove_nth.
  - unfold resolve. rewrite Hk. now split.
Qed.

Lemma on_dashboard_invariant (f : Dashboard.t -> Dashboard.t) (a : App.t) :
  (shapes_ok (App.dashboard a) -> shapes_ok (f (App.dashboard a))) ->
  shapes_ok (App.dashboard a) /\ session_ok a ->
  shapes_ok (App.dashboard (on_dashboard f a)) /\ session_ok (on_dashboard f a).
Proof.
  intros Hf [Hshapes (Hlen & Hmarkers & Hpreview & Hidle)].
  split; [now apply Hf|].
  unfold session_ok, on_dashboard; cbn [App.map App.dashboard].
  destruct (Dashboard.isDrawing (f (App.dashboard a))); simpl.
  - repeat split; trivial. discriminate.
  - repeat split; trivial. lia.
Qed.

Lemma click_invariant (latlng : coord) (a : App.t) :
  shapes_ok (App.dashboard a) /\ session_ok a ->
  shapes_ok (App.dashboard (click latlng a)) /\ session_ok (click latlng a).
Proof.
  intros [Hshapes (Hlen & Hmarkers & Hpreview & Hidle)].
  split; [exact Hshapes|].
  unfold session_ok, click; cbn [App.map App.dashboard].
  unfold handleMapClick.
  destruct (Dashboard.isDrawing (App.dashboard a)) eqn:Hon; cbn [negb].
  2:{ repeat split; trivial. }
  destruct (Nat.ltb_spec 12 (List.length (Drawing.drawingPoints (App.map a)
                                           ++ [latlng]))) as [Hfull|Hroom].
  { repeat split; trivial. }
  cbn [Drawing.drawingPoints Drawing.drawingMarkers Drawing.previewPolygon].
  split; [exact Hroom|]. split; [now rewrite Hmarkers|]. split; [|discriminate].
  rewrite length_app in *. cbn [List.length] in *.
  destruct (Nat.leb_spec 3 (List.length (Drawing.drawingPoints (App.map a)) + 1));
    trivial.
  rewrite Hpreview.
  destruct (Nat.leb_spec 3 (List.length (Drawing.drawingPoints (App.map a))));
    [lia|reflexivity].
Qed.

Lemma contextmenu_invariant (now : Z) (a : App.t) :
  shapes_ok (App.dashboard a) /\ session_ok a ->
  shapes_ok (App.dashboard (contextmenu now a)) /\ session_ok (contextmenu now a).
Proof.
  intros H. pose proof H as [[Hps Hfl] (Hlen & _)].
  unfold contextmenu, handleRightClick.
  destruct (negb (Dashboard.isDrawing (App.dashboard a))); cbn [orb];
    [exact H|].
  destruct (Nat.ltb_spec (List.length (Drawing.drawingPoints (App.map a))) 3)
    as [Hfew|Henough]; [exact H|].
  assert (Hdraw : drawable (Drawing.drawingPoints (App.map a)))
    by (unfold drawable; lia).
  split; [split|].
  - cbn [App.dashboard handlePolygonComplete Dashboard.polygons].
    rewrite map_app. apply Forall_app. split; trivial.
    constructor; [exact Hdraw | constructor].
  - cbn [App.dashboard handlePolygonComplete Dashboard.inflight].
    apply Forall_app. split; trivial.
    constructor; [|constructor]. constructor; [exact Hdraw | constructor].
  - unfold session_ok; simpl. repeat split; trivial. lia.
Qed.

Lemma step_invariant fetch (e : event) (a : App.t) :
  shapes_ok (App.dashboard a) /\ session_ok a ->
  shapes_ok (App.dashboard (step fetch e a)) /\ session_ok (step fetch e a).
Proof.
  intros H. destruct e as [|latlng|now|dataSourceId|polygonId|range|k];
    cbn [step].
  - unfold draw_button_click.
    destruct (Dashboard.isDrawing (App.dashboard a)) eqn:Hon; trivial.
    destruct H as [Hshapes (Hlen & Hmarkers & Hpreview & _)].
    split; [exact Hshapes|]. unfold session_ok; simpl.
    repeat split; trivial. discriminate.
  - now apply click_invariant.
  - now apply contextmenu_invariant.
  - apply on_dashboard_invariant; trivial. apply onDataSourceChange_shapes.
  - apply on_dashboard_invariant; trivial. apply handleDeletePolygon_shapes.
  - apply on_dashboard_invariant; trivial. apply onRangeChange_shapes.
  - apply on_dashboard_invariant; trivial. apply resolve_shapes.
Qed.

Lemma drawable_centroid_finite (coordinates : list coord) :
  drawable coordinates ->
  exists lat lon, centroid coordinates = (Fin lat, Fin lon).
Proof.
  intros [H3 _]. destruct coordinates as [|c coordinates]; [simpl in H3; lia|].
  unfold centroid. simpl List.length. unfold div_by_length. eauto.
Qed.

(** X5. Whatever the events, every polygon of the collection, and every
    polygon a suspended recompute or first fetch holds, has between 3 and 12
    coordinates, so the point each fetch queries is a pair of finite
    numbers; and the session of the map never holds more than 12 points, has
    one marker per point, shows the preview exactly from the third point on,
    and is empty whenever drawing is off. *)
Theorem shapes_and_session_invariant fetch (range : TimeRange.t)
    (events : list event) :
  let a := run fetch events (start range) in
  shapes_ok (App.dashboard a)
  /\ session_ok a
  /\ Forall (fun p => exists lat lon,
                 centroid (Polygon.coordinates p) = (Fin lat, Fin lon))
       (Dashboard.polygons (App.dashboard a)).
Proof.
  assert (Hinv : shapes_ok (App.dashboard (run fetch events (start range)))
                 /\ session_ok (run fetch events (start range))).
  { induction events as [|e events IH] using rev_ind.
    - split; [split; constructor|].
      unfold session_ok; simpl. repeat split; trivial. lia.
    - rewrite run_snoc. now apply step_invariant. }
  intros a. destruct Hinv as [Hshapes Hsession].
  split; [exact Hshapes|]. split; [exact Hsession|].
  destruct Hshapes as [Hps _]. rewrite Forall_map in Hps.
  revert Hps. apply Forall_impl. intros p. apply drawable_centroid_finite.
Qed.

Lemma on_dashboard_isDrawing (f : Dashboard.t -> Dashboard.t) (a : App.t) :
  Dashboard.isDrawing (f (App.dashboard a)) = Dashboard.isDrawing (App.dashboard a) ->
  Dashboard.isDrawing (App.dashboard (on_dashboard f a))
  = Dashboard.isDrawing (App.dashboard a).
Proof. intros H. exact H. Qed.

(** X6. Once drawing is on, no event of the interface turns it off except a
    right click on the map with at least 3 points captured, which commits
    them as a polygon: the panel's button is disabled while drawing, so a
    started session cannot be abandoned. *)
Theorem drawing_ends_only_by_commit fetch (e : event) (a : App.t) :
  Dashboard.isDrawing (App.dashboard a) = true ->
  Dashboard.isDrawing (App.dashboard (step fetch e a)) = false ->
  exists now,
    e = map_contextmenu now
    /\ 3 <= List.length (Drawing.drawingPoints (App.map a))
    /\ Dashboard.polygons (App.dashboard (step fetch e a))
       = Dashboard.polygons (App.dashboard a)
           ++ [newPolygon now (Drawing.drawingPoints (App.map a))
                 (Dashboard.selectedDataSource (App.dashboard a))].
Proof.
  intros Hon Hoff.
  destruct e as [|latlng|now|dataSourceId|polygonId|range|k]; cbn [step] in Hoff.
  - unfold draw_button_click in Hoff. rewrite Hon in Hoff. congruence.
  - simpl in Hoff. congruence.
  - exists now. split; [reflexivity|].
    cbn [step]. unfold contextmenu, handleRightClick in *. rewrite Hon in *.
    simpl in *.
    destruct (Nat.ltb_spec (List.length (Drawing.drawingPoints (App.map a))) 3);
      simpl in *; [congruence|].
    split; [assumption | reflexivity].
  - rewrite on_dashboard_isDrawing in Hoff; [congruence|].
    apply onDataSourceChange_frame.
  - simpl in Hoff. congruence.
  - rewrite on_dashboard_isDrawing in Hoff; [congruence|].
    apply onRangeChange_frame.
  - rewrite on_dashboard_isDrawing in Hoff; [congruence|].
    apply resolve_frame.
Qed.

Lemma drawing_ends_only_by_commit_witness :
  let a := clicks [(0, 0); (0, 2); (2, 2)]%Q
             (step steady_source draw_button
                (start (TimeRange.mk 0%Z 86400000%Z))) in
  Dashboard.isDrawing (App.dashboard a) = true
  /\ Dashboard.isDrawing
       (App.dashboard (step steady_source (map_contextmenu 1700000000000%Z) a))
     = false
  /\ exists now,
       map_contextmenu 1700000000000%Z = map_contextmenu now
       /\ 3 <= List.length (Drawing.drawingPoints (App.map a)).
Proof.
  intros a.
  assert (Hon : Dashboard.isDrawing (App.dashboard a) = true) by reflexivity.
  assert (Hoff : Dashboard.isDrawing
                   (App.dashboard
                      (step steady_source (map_contextmenu 1700000000000%Z) a))
                 = false) by reflexivity.
  split; [exact Hon|]. split; [exact Hoff|].
  destruct (drawing_ends_only_by_commit steady_source
              (map_contextmenu 1700000000000%Z) a Hon Hoff)
    as (now & He & H3 & _).
  exists now. split; assumption.
Defined.

(** ** How store operations compose *)

Lemma filter_filter_swap {A} (f g : A -> bool) (l : list A) :
  filter f (filter g l) = filter g (filter f l).
Proof.
  induction l as [|x l IH]; simpl; trivial.
  destruct (g x) eqn:Hg, (f x) eqn:Hf; simpl; rewrite ?Hg, ?Hf, IH; reflexivity.
Qed.

Lemma filter_twice {A} (f : A -> bool) (l : list A) :
  filter f (filter f l) = filter f l.
Proof.
  induction l as [|x l IH]; simpl; trivial.
  destruct (f x) eqn:Hf; simpl; rewrite ?Hf, IH; reflexivity.
Qed.

(** X7. Deleting the same identifier twice is deleting it once, deletions of
    two identifiers can be done in either order, and a deletion leaves the
    suspended fetches in flight. *)
Theorem handleDeletePolygon_composes (id1 id2 : string) (s : Dashboard.t) :
  handleDeletePolygon id1 (handleDeletePolygon id1 s) = handleDeletePolygon id1 s
  /\ handleDeletePolygon id1 (handleDeletePolygon id2 s)
     = handleDeletePolygon id2 (handleDeletePolygon id1 s)
  /\ Dashboard.inflight (handleDeletePolygon id1 s) = Dashboard.inflight s.
Proof.
  unfold handleDeletePolygon; simpl. split; [|split]; trivial.
  - now rewrite filter_twice.
  - now rewrite filter_filter_swap.
Qed.

(** X8. Two polygons committed at the same clock reading share their
    identifier and cannot be told apart afterwards: deleting the identifier
    removes both, and when the first fetch of the first one settles, both
    get the value fetched at the centroid of the first. *)
Theorem identifier_collision_couples_polygons fetch (now : Z)
    (c1 c2 : list coord) (s : Dashboard.t) :
  let s2 := handlePolygonComplete now c2 (handlePolygonComplete now c1 s) in
  let selected := Dashboard.selectedDataSource s in
  let value1 :=
    fetch selected (fst (centroid c1)) (snd (centroid c1))
      (TimeRange.start (Dashboard.timeRange s))
      (TimeRange.end_ (Dashboard.timeRange s)) in
  Dashboard.polygons (handleDeletePolygon (polygon_id now) s2)
  = Dashboard.polygons (handleDeletePolygon (polygon_id now) s)
  /\ exists color,
       color_of_value value1 selected = Normal color
       /\ Dashboard.polygons
            (resolve fetch (List.length (Dashboard.inflight s)) s2)
          = map (patch (polygon_id now) value1 color selected)
              (Dashboard.polygons s)
              ++ [ Polygon.mk (polygon_id now) c1 color value1 selected;
                   Polygon.mk (polygon_id now) c2 color value1 selected ].
Proof.
  intros s2 selected value1. split.
  - unfold s2. simpl. rewrite !filter_app. simpl.
    rewrite String.eqb_refl. simpl. now rewrite !app_nil_r.
  - assert (Hk : nth_error (Dashboard.inflight s2)
                   (List.length (Dashboard.inflight s))
                 = Some (first_fetch (polygon_id now) c1 selected
                           (Dashboard.timeRange s))).
    { unfold s2. simpl. apply nth_error_snoc_before. }
    unfold resolve. rewrite Hk.
    destruct (first_fetch_polygons fetch (polygon_id now) c1 selected
                (Dashboard.timeRange s)
                (without_task (List.length (Dashboard.inflight s)) s2))
      as (c & Hc & ->).
    exists c. split; [exact Hc|].
    unfold s2. cbn [without_task Dashboard.polygons handlePolygonComplete].
    rewrite !map_app. rewrite <- app_assoc. f_equal.
    simpl. unfold patch, newPolygon. simpl. now rewrite String.eqb_refl.
Qed.

(** ** The polygon layers of the map *)

Lemma layer_get_None (k : string) (m : layers) :
  layer_get k m = None <-> ~ In k (map fst m).
Proof.
  induction m as [|[k0 l0] m IH]; simpl.
  - tauto.
  - destruct (String.eqb_spec k0 k) as [->|Hne].
    + split; [discriminate | intros H; elim H; now left].
    + rewrite IH. tauto.
Qed.

Lemma layer_get_setStyle_other (k polygonId color : string) (m : layers) :
  k <> polygonId -> layer_get k (setStyle polygonId color m) = layer_get k m.
Proof.
  intros Hne. induction m as [|[k0 l0] m IH]; simpl; trivial.
  destruct (String.eqb_spec k0 polygonId) as [->|Hk0]; simpl.
  - destruct (String.eqb_spec polygonId k); [congruence | exact IH].
  - now rewrite IH.
Qed.

Lemma layer_get_setStyle_same (polygonId color : string) (m : layers)
    (l : Layer.t) :
  layer_get polygonId m = Some l ->
  layer_get polygonId (setStyle polygonId color m)
  = Some (Layer.mk (Layer.latlngs l) color (Layer.popup l)).
Proof.
  induction m as [|[k0 l0] m IH]; simpl; [discriminate|].
  destruct (String.eqb_spec k0 polygonId) as [->|Hk0]; simpl.
  - rewrite String.eqb_refl. now intros [= ->].
  - destruct (String.eqb_spec k0 polygonId); [contradiction|]. exact IH.
Qed.

Lemma layer_get_snoc (k polygonId : string) (l : Layer.t) (m : layers) :
  layer_get k (m ++ [(polygonId, l)])
  = match layer_get k m with
    | Some l0 => Some l0
    | None => if String.eqb polygonId k then Some l else None
    end.
Proof.
  induction m as [|[k0 l0] m IH]; simpl; trivial.
  now destruct (String.eqb k0 k).
Qed.

Lemma add_or_update_other (k : string) (m : layers) (q : Polygon.t) :
  k <> Polygon.id q -> layer_get k (add_or_update m q) = layer_get k m.
Proof.
  intros Hne. unfold add_or_update.
  destruct (layer_get (Polygon.id q) m).
  - now apply layer_get_setStyle_other.
  - rewrite layer_get_snoc. destruct (layer_get k m); trivial.
    destruct (String.eqb_spec (Polygon.id q) k); [congruence|reflexivity].
Qed.

Lemma add_or_update_same (m : layers) (q : Polygon.t) :
  exists l,
    layer_get (Polygon.id q) (add_or_update m q) = Some l
    /\ Layer.style l = Polygon.color q
    /\ (forall l0, layer_get (Polygon.id q) m = Some l0 ->
                   Layer.latlngs l = Layer.latlngs l0
                   /\ Layer.popup l = Layer.popup l0)
    /\ (layer_get (Polygon.id q) m = None ->
        Layer.latlngs l = Polygon.coordinates q
        /\ Layer.popup l = popup_text q).
Proof.
  unfold add_or_update.
  destruct (layer_get (Polygon.id q) m) as [l0|] eqn:E.
  - eexists. split; [apply layer_get_setStyle_same; exact E|].
    simpl. split; trivial. split; [|discriminate].
    now intros l1 [= <-].
  - eexists. split.
    + rewrite layer_get_snoc, E. now rewrite String.eqb_refl.
    + simpl. split; trivial. split; [discriminate | auto].
Qed.

Lemma fold_add_or_update_other (k : string) (ps : list Polygon.t) (m : layers) :
  ~ In k (map Polygon.id ps) ->
  layer_get k (fold_left add_or_update ps m) = layer_get k m.
Proof.
  revert m. induction ps as [|q ps IH]; simpl; intros m Hout; trivial.
  rewrite IH by tauto. apply add_or_update_other.
  intros E. apply Hout. now left.
Qed.

Lemma fold_add_or_update_keeps (k : string) (ps : list Polygon.t) (m : layers)
    (l : Layer.t) :
  layer_get k m = Some l ->
  exists l', layer_get k (fold_left add_or_update ps m) = Some l'
             /\ Layer.latlngs l' = Layer.latlngs l
             /\ Layer.popup l' = Layer.popup l.
Proof.
  revert m l. induction ps as [|q ps IH]; simpl; intros m l Hl.
  - now exists l.
  - destruct (String.eqb_spec k (Polygon.id q)) as [->|Hne].
    + destruct (add_or_update_same m q) as (l1 & H1 & _ & Hold & _).
      destruct (Hold l Hl) as [Hg Hp].
      destruct (IH _ _ H1) as (l' & H' & Hg' & Hp').
      exists l'. split; [exact H'|]. split; congruence.
    + apply IH. now rewrite add_or_update_other.
Qed.

Lemma existsb_id (k : string) (ps : list Polygon.t) :
  existsb (fun p => String.eqb (Polygon.id p) k) ps = true
  <-> In k (map Polygon.id ps).
Proof.
  rewrite existsb_exists, in_map_iff.
  split; intros (p & H1 & H2).
  - apply String.eqb_eq in H2. now exists p.
  - exists p. split; trivial. now apply String.eqb_eq.
Qed.

Lemma layer_get_remove_old (k : string) (ps : list Polygon.t) (m : layers) :
  layer_get k (remove_old ps m)
  = if existsb (fun p => String.eqb (Polygon.id p) k) ps
    then layer_get k m else None.
Proof.
  unfold remove_old. induction m as [|[k0 l0] m IH]; simpl.
  - now destruct (existsb _ ps).
  - destruct (String.eqb_spec k0 k) as [->|Hne].
    + destruct (existsb (fun p => String.eqb (Polygon.id p) k) ps) eqn:E; simpl.
      * now rewrite String.eqb_refl.
      * rewrite IH. reflexivity.
    + destruct (existsb (fun p => String.eqb (Polygon.id p) k0) ps); simpl.
      * destruct (String.eqb_spec k0 k); [contradiction|]. exact IH.
      * exact IH.
Qed.

Lemma keys_add_or_update (m : layers) (q : Polygon.t) :
  NoDup (map fst m) -> NoDup (map fst (add_or_update m q)).
Proof.
  intros Hnd. unfold add_or_update.
  destruct (layer_get (Polygon.id q) m) eqn:E.
  - unfold setStyle. rewrite map_map.
    erewrite map_ext; [exact Hnd|].
    intros [k0 l0]; simpl. now destruct (String.eqb k0 (Polygon.id q)).
  - apply layer_get_None in E. rewrite map_app; simpl.
    apply NoDup_app; trivial.
    + constructor; [tauto | constructor].
    + intros k Hk [<- | []]. contradiction.
Qed.

Lemma keys_remove_old (ps : list Polygon.t) (m : layers) :
  NoDup (map fst m) -> NoDup (map fst (remove_old ps m)).
Proof.
  unfold remove_old. induction m as [|[k0 l0] m IH]; simpl; intros Hnd; trivial.
  inversion Hnd as [|? ? Hout Hrest]; subst.
  destruct (existsb _ ps); simpl; auto.
  constructor; auto.
  intros Hin. apply Hout. apply in_map_iff in Hin.
  destruct Hin as (e & He & Hin). apply filter_In in Hin.
  apply in_map_iff. exists e. tauto.
Qed.

Lemma keys_fold_add_or_update (ps : list Polygon.t) (m : layers) :
  NoDup (map fst m) -> NoDup (map fst (fold_left add_or_update ps m)).
Proof.
  revert m. induction ps as [|q ps IH]; simpl; intros m Hnd; trivial.
  apply IH. now apply keys_add_or_update.
Qed.

Lemma fold_add_or_update_present (k : string) (ps : list Polygon.t) (m : layers) :
  In k (map Polygon.id ps) ->
  layer_get k (fold_left add_or_update ps m) <> None.
Proof.
  revert m. induction ps as [|q ps IH]; simpl; intros m Hin; [contradiction|].
  destruct (in_dec string_dec k (map Polygon.id ps)) as [Hlater|Hnot].
  - now apply IH.
  - destruct Hin as [<- | Hin]; [|contradiction].
    rewrite fold_add_or_update_other by exact Hnot.
    destruct (add_or_update_same m q) as (l & -> & _). discriminate.
Qed.

(** X9. After the effect on the collection has run, the map shows a layer
    for exactly the identifiers of the collection, one layer per
    identifier. *)
Theorem sync_layers_follows_the_collection (polygons : list Polygon.t)
    (m : layers) :
  NoDup (map fst m) ->
  NoDup (map fst (sync_layers polygons m))
  /\ forall k, In k (map fst (sync_layers polygons m))
               <-> In k (map Polygon.id polygons).
Proof.
  intros Hnd. unfold sync_layers. split.
  - now apply keys_fold_add_or_update, keys_remove_old.
  - intros k. split.
    + intros Hin.
      destruct (in_dec string_dec k (map Polygon.id polygons)) as [H|Hout];
        trivial.
      exfalso. revert Hin. apply layer_get_None.
      rewrite fold_add_or_update_other by exact Hout.
      rewrite layer_get_remove_old.
      destruct (existsb _ polygons) eqn:E; trivial.
      apply existsb_id in E. contradiction.
    + intros Hin.
      destruct (in_dec string_dec k
                  (map fst (fold_left add_or_update polygons
                              (remove_old polygons m)))) as [H|Hout]; trivial.
      apply layer_get_None in Hout.
      now elim (fold_add_or_update_present k polygons
                  (remove_old polygons m) Hin).
Qed.

Lemma sync_layers_follows_the_collection_witness :
  let stale := [("polygon-1", Layer.mk [(0, 0); (0, 1); (1, 1)]%Q neutral loading)] in
  let ps := [Polygon.mk "polygon-2" [(5, 5); (5, 6); (6, 6)]%Q neutral
               undefined "temperature_2m"] in
  NoDup (map fst stale)
  /\ (In "polygon-2" (map fst (sync_layers ps stale))
      <-> In "polygon-2" (map Polygon.id ps)).
Proof.
  intros stale ps.
  assert (Hnd : NoDup (map fst stale))
    by (constructor; [intros [] | constructor]).
  split; [exact Hnd|].
  exact (proj2 (sync_layers_follows_the_collection ps stale Hnd) "polygon-2").
Defined.

(** X10. The effect never rebinds a popup nor moves a layer: a layer that
    exists for an identifier still in the collection keeps the text and the
    geometry it was created with. In particular the popup of a polygon
    created before its value arrived goes on saying that it is loading. *)
Theorem sync_layers_keeps_popup_and_geometry (polygons : list Polygon.t)
    (m : layers) (polygonId : string) (l : Layer.t) :
  layer_get polygonId m = Some l ->
  In polygonId (map Polygon.id polygons) ->
  exists l',
    layer_get polygonId (sync_layers polygons m) = Some l'
    /\ Layer.popup l' = Layer.popup l
    /\ Layer.latlngs l' = Layer.latlngs l.
Proof.
  intros Hl Hin. unfold sync_layers.
  assert (Hkept : layer_get polygonId (remove_old polygons m) = Some l).
  { rewrite layer_get_remove_old.
    now rewrite (proj2 (existsb_id polygonId polygons) Hin). }
  destruct (fold_add_or_update_keeps polygonId polygons _ l Hkept)
    as (l' & H' & Hg & Hp).
  exists l'. auto.
Qed.

Lemma sync_layers_keeps_popup_and_geometry_witness :
  let fresh := Polygon.mk "polygon-1700000000000" [(0, 0); (0, 2); (2, 2)]%Q
                 neutral undefined "temperature_2m" in
  let settled := Polygon.mk "polygon-1700000000000" [(0, 0); (0, 2); (2, 2)]%Q
                   "#06B6D4" (num (Fin 5)) "temperature_2m" in
  exists l,
    layer_get "polygon-1700000000000" (sync_layers [fresh] []) = Some l
    /\ Layer.popup l = loading
    /\ exists l',
         layer_get "polygon-1700000000000"
           (sync_layers [settled] (sync_layers [fresh] [])) = Some l'
         /\ Layer.popup l' = loading.
Proof.
  intros fresh settled.
  eexists. split; [reflexivity|]. split; [reflexivity|].
  destruct (sync_layers_keeps_popup_and_geometry [settled]
              (sync_layers [fresh] []) "polygon-1700000000000" _ eq_refl)
    as (l' & H' & Hp & _).
  - now left.
  - exists l'. split; [exact H'|]. exact Hp.
Defined.

Lemma fold_add_or_update_styles (ps : list Polygon.t) (m : layers) (p : Polygon.t) :
  NoDup (map Polygon.id ps) ->
  In p ps ->
  exists l,
    layer_get (Polygon.id p) (fold_left add_or_update ps m) = Some l
    /\ Layer.style l = Polygon.color p
    /\ (layer_get (Polygon.id p) m = None ->
        Layer.latlngs l = Polygon.coordinates p
        /\ Layer.popup l = popup_text p).
Proof.
  revert m. induction ps as [|q ps IH]; simpl; intros m Hnd Hin; [contradiction|].
  inversion Hnd as [|? ? Hfresh Hrest]; subst.
  destruct Hin as [-> | Hin].
  - destruct (add_or_update_same m p) as (l & Hl & Hs & _ & Hnew).
    exists l. rewrite fold_add_or_update_other by exact Hfresh. auto.
  - assert (Hne : Polygon.id p <> Polygon.id q).
    { intros E. apply Hfresh. rewrite <- E. now apply in_map. }
    destruct (IH (add_or_update m q) Hrest Hin) as (l & Hl & Hs & Hnew).
    exists l. split; [exact Hl|]. split; [exact Hs|].
    intros Hnone. apply Hnew. now rewrite add_or_update_other.
Qed.

(** X11. When the identifiers of the collection are pairwise distinct, the
    effect leaves every polygon with a layer drawn in the polygon's color;
    a layer created by this run has the polygon's coordinates and a popup
    made from the polygon's value at that moment. *)
Theorem sync_layers_paints_every_polygon (polygons : list Polygon.t)
    (m : layers) (p : Polygon.t) :
  NoDup (map Polygon.id polygons) ->
  In p polygons ->
  exists l,
    layer_get (Polygon.id p) (sync_layers polygons m) = Some l
    /\ Layer.style l = Polygon.color p
    /\ (layer_get (Polygon.id p) m = None ->
        Layer.latlngs l = Polygon.coordinates p
        /\ Layer.popup l = popup_text p).
Proof.
  intros Hnd Hin. unfold sync_layers.
  destruct (fold_add_or_update_styles polygons (remove_old polygons m) p Hnd Hin)
    as (l & Hl & Hs & Hnew).
  exists l. split; [exact Hl|]. split; [exact Hs|].
  intros Hnone. apply Hnew. rewrite layer_get_remove_old, Hnone.
  now destruct (existsb _ polygons).
Qed.

Lemma sync_layers_paints_every_polygon_witness :
  let settled := Polygon.mk "polygon-1700000000000" [(0, 0); (0, 2); (2, 2)]%Q
                   "#06B6D4" (num (Fin 5)) "temperature_2m" in
  NoDup (map Polygon.id [settled])
  /\ exists l,
       layer_get "polygon-1700000000000" (sync_layers [settled] []) = Some l
       /\ Layer.style l = "#06B6D4".
Proof.
  intros settled.
  assert (Hnd : NoDup (map Polygon.id [settled]))
    by (constructor; [intros [] | constructor]).
  split; [exact Hnd|].
  destruct (sync_layers_paints_every_polygon [settled] [] settled Hnd
              (or_introl eq_refl)) as (l & Hl & Hs & _).
  exists l. split; [exact Hl | exact Hs].
Defined.

(** ** Further properties of the classifier *)

Lemma in_rule_only_finite (v : number) (lo hi : Q) (c : string) :
  in_rule v (rule lo hi c) = true ->
  exists q, v = Fin q /\ (lo <= q)%Q /\ (q < hi)%Q.
Proof.
  destruct v as [| |q|]; try discriminate.
  intros H. exists q. split; trivial. now apply in_rule_finite in H.
Qed.

Ltac split_cases :=
  repeat match goal with
         | H : _ \/ _ |- _ => destruct H as [H | H]
         | H : False |- _ => destruct H
         end.

(** X12. In each variable of the catalog the rule that holds a value is
    unique: no two rules of one variable overlap, so "the first rule that
    matches" is "the rule that matches". *)
Theorem catalog_rules_do_not_overlap (ds : DataSource.t) (v : number)
    (r1 r2 : ColorRule.t) :
  In ds dataSources ->
  In r1 (DataSource.colorRules ds) ->
  In r2 (DataSource.colorRules ds) ->
  in_rule v r1 = true ->
  in_rule v r2 = true ->
  r1 = r2.
Proof.
  intros Hds H1 H2 Hv1 Hv2.
  simpl in Hds. split_cases; subst ds; simpl in H1, H2; split_cases;
    subst r1 r2; try reflexivity; exfalso;
    apply in_rule_only_finite in Hv1; apply in_rule_only_finite in Hv2;
    destruct Hv1 as (q & -> & Ha & Hb); destruct Hv2 as (q' & [= <-] & Hc & Hd);
    lra.
Qed.

Lemma catalog_rules_do_not_overlap_witness :
  In temperature dataSources
  /\ in_rule (Fin 5) (rule 0 10 "#06B6D4") = true
  /\ forall r, In r (DataSource.colorRules temperature) ->
               in_rule (Fin 5) r = true -> rule 0 10 "#06B6D4" = r.
Proof.
  assert (Hds : In temperature dataSources) by (left; reflexivity).
  assert (Hv : in_rule (Fin 5) (rule 0 10 "#06B6D4") = true) by reflexivity.
  split; [exact Hds|]. split; [exact Hv|].
  intros r Hr Hvr.
  apply (catalog_rules_do_not_overlap temperature (Fin 5) _ r Hds); trivial.
  right. now left.
Defined.

Lemma in_rule_false (q lo hi : Q) (c : string) :
  in_rule (Fin q) (rule lo hi c) = false -> ~ (lo <= q /\ q < hi)%Q.
Proof.
  intros H Hin. apply in_rule_finite with (c := c) in Hin. congruence.
Qed.

(** X13. The rules of each variable of the catalog leave no gap: a finite
    value from the first rule's minimum up to, but not including, the last
    rule's maximum is held by a rule of the variable, and the classifier
    returns that rule's color. *)
Theorem catalog_rules_leave_no_gap (ds : DataSource.t) (q : Q)
    (first final : ColorRule.t) (rest init : list ColorRule.t) :
  In ds dataSources ->
  DataSource.colorRules ds = first :: rest ->
  DataSource.colorRules ds = init ++ [final] ->
  num_ge (Fin q) (ColorRule.min first) = true ->
  num_lt (Fin q) (ColorRule.max final) = true ->
  exists r,
    In r (DataSource.colorRules ds)
    /\ in_rule (Fin q) r = true
    /\ getColorForValue (Fin q) (DataSource.id ds) = Normal (ColorRule.color r).
Proof.
  intros Hds Hfirst Hlast Hlo Hhi.
  unfold getColorForValue, getColorForValueIn.
  rewrite (find_in_catalog ds Hds).
  apply (f_equal (fun l => List.last l first)) in Hlast.
  rewrite last_last in Hlast.
  simpl in Hds. split_cases; subst ds;
    injection Hfirst as <- _;
    simpl in Hlast; subst final;
    assert (Hlo' := Hlo); assert (Hhi' := Hhi);
    simpl in Hlo', Hhi';
    apply Qle_bool_iff in Hlo';
    apply negb_true_iff in Hhi';
    (assert (Hhi'' : ~ (_ <= q)%Q)
       by (intros Hle; apply Qle_bool_iff in Hle; rewrite Hle in Hhi';
           discriminate Hhi'));
    cbn -[in_rule];
    repeat match goal with
           | |- context [if in_rule (Fin q) ?r then _ else _] =>
               let E := fresh "E" in
               destruct (in_rule (Fin q) r) eqn:E;
               [ exists r; split; [simpl; tauto | split; [exact E | reflexivity]]
               | apply in_rule_false in E ]
           end;
    exfalso; lra.
Qed.

Lemma catalog_rules_leave_no_gap_witness :
  exists r,
    In r (DataSource.colorRules precipitation)
    /\ in_rule (Fin (1 # 2)) r = true
    /\ getColorForValue (Fin (1 # 2)) "precipitation"
       = Normal (ColorRule.color r).
Proof.
  apply (catalog_rules_leave_no_gap precipitation (1 # 2)
           (rule 0 (1 # 10) "#F3F4F6") (rule 15 50 "#1E1B4B")
           [ rule (1 # 10) 1 "#06B6D4"; rule 1 5 "#3B82F6";
             rule 5 15 "#1D4ED8"; rule 15 50 "#1E1B4B" ]
           [ rule 0 (1 # 10) "#F3F4F6"; rule (1 # 10) 1 "#06B6D4";
             rule 1 5 "#3B82F6"; rule 5 15 "#1D4ED8" ]).
  - right. right. now left.
  - reflexivity.
  - reflexivity.
  - reflexivity.
  - reflexivity.
Defined.

Lemma last_rule_color_nonempty (rules : list ColorRule.t) :
  rules <> [] -> exists c, last_rule_color rules = Normal c.
Proof.
  intros Hne. destruct (exists_last Hne) as (init & l & ->).
  rewrite last_rule_color_snoc. now eexists.
Qed.

(** X14. Over any catalog the classifier raises in one case only: the first
    data source carrying the identifier has an empty rule list, and then it
    raises a TypeError whatever the value. *)
Theorem getColorForValueIn_raises_only_without_rules
    (catalog : list DataSource.t) (v : number) (dataSourceId : string) (e : error) :
  getColorForValueIn catalog v dataSourceId = Throw e
  <-> e = TypeError
      /\ exists ds,
           find (fun d => String.eqb (DataSource.id d) dataSourceId) catalog
           = Some ds
           /\ DataSource.colorRules ds = [].
Proof.
  unfold getColorForValueIn.
  destruct (find _ catalog) as [ds|].
  - destruct (DataSource.colorRules ds) as [|r rules] eqn:Hrules.
    + simpl. split.
      * intros [= <-]. split; trivial. now exists ds.
      * now intros [-> _].
    + split.
      * destruct (scan_rules v (r :: rules)); [discriminate|].
        destruct (last_rule_color_nonempty (r :: rules)) as [c ->];
          discriminate.
      * intros (_ & ds' & [= <-] & Hnil). congruence.
  - split; [discriminate|]. now intros (_ & ds & H & _).
Qed.

(** ** Further properties of [fetchWeatherData] and of what it feeds *)

(** X15. The latitude kept in [clampedLat] is NaN for NaN, -90 and 90 for
    the infinities, and for a finite latitude a finite number of [-90, 90]
    that is the latitude itself when it lies in that range. *)
Theorem clamp_latitude_range (lat : number) :
  match lat with
  | NaN => clamp_latitude lat = NaN
  | NegInf => clamp_latitude lat = Fin (-90)
  | PosInf => clamp_latitude lat = Fin 90
  | Fin q =>
      exists c, clamp_latitude lat = Fin c
                /\ (-90 <= c)%Q /\ (c <= 90)%Q
                /\ ((-90 <= q)%Q /\ (q <= 90)%Q <-> (c == q)%Q)
  end.
Proof.
  destruct lat as [| |q|]; try reflexivity.
  destruct (clamp_latitude_finite q) as (c & E & Hlo & Hhi & Hsame).
  exists c. split; [exact E|]. split; [exact Hlo|]. split; [exact Hhi|].
  split.
  - intros [H1 H2]. now apply Hsame.
  - intros Heq. rewrite <- Heq. now split.
Qed.

Lemma wired_fetch_null (world : api) (selected : string) (lat lon : number)
    (startTime endTime : Date) :
  wired_fetch world selected lat lon startTime endTime = null.
Proof. reflexivity. Qed.

(** X17. In the program as wired, whatever the data source would answer,
    once the first fetch of a polygon still in the collection has settled,
    or a recompute on a non-empty snapshot has, rendering the polygons tab
    of the panel raises. *)
Theorem wired_program_breaks_the_polygons_tab (world : api) (k : nat)
    (s : Dashboard.t) (t : task) :
  nth_error (Dashboard.inflight s) k = Some t ->
  match t with
  | first_fetch polygonId _ _ _ =>
      In polygonId (map Polygon.id (Dashboard.polygons s))
  | recompute snapshot _ _ => snapshot <> []
  end ->
  exists e,
    render_polygons_tab (Dashboard.polygons (resolve (wired_fetch world) k s))
    = Throw e.
Proof.
  intros Hk Ht.
  destruct t as [snapshot selected range | polygonId coordinates selected range].
  - destruct (resolve_recompute (wired_fetch world) k s snapshot selected range Hk)
      as (_ & Hd & _).
    destruct Hd as [|p p' snapshot updated (_ & _ & _ & Hv & _) _];
      [congruence|].
    rewrite wired_fetch_null in Hv.
    apply (map_all_throws panel_value_row [] p' updated TypeError).
    unfold panel_value_row. now rewrite Hv.
  - unfold resolve. rewrite Hk.
    destruct (first_fetch_polygons (wired_fetch world) polygonId coordinates
                selected range (without_task k s)) as (c & _ & ->).
    cbn [without_task Dashboard.polygons]. rewrite wired_fetch_null.
    apply in_map_iff in Ht. destruct Ht as (p & Hid & Hin).
    apply in_split in Hin. destruct Hin as (before & after & ->).
    rewrite map_app. simpl.
    apply (map_all_throws panel_value_row) with (e := TypeError).
    unfold panel_value_row, patch. now rewrite Hid, String.eqb_refl.
Qed.

Lemma wired_program_breaks_the_polygons_tab_witness :
  let s := handlePolygonComplete 1700000000000%Z [(0, 0); (0, 2); (2, 2)]%Q
             (initial (TimeRange.mk 0%Z 86400000%Z)) in
  render_polygons_tab (Dashboard.polygons s) = Normal [nothing]
  /\ exists e,
       render_polygons_tab
         (Dashboard.polygons (resolve (wired_fetch (fun _ => network_error)) 0 s))
       = Throw e.
Proof.
  intros s. split; [reflexivity|].
  apply (wired_program_breaks_the_polygons_tab (fun _ => network_error) 0 s
           (first_fetch "polygon-1700000000000" [(0, 0); (0, 2); (2, 2)]%Q
              "temperature_2m" (TimeRange.mk 0%Z 86400000%Z))).
  - reflexivity.
  - simpl. now left.
Defined.

(** X18. The polygons tab renders exactly when no polygon of the collection
    has the value [null]; the map popup text is defined for every value. *)
Theorem polygons_tab_renders_iff_no_null (polygons : list Polygon.t) :
  ((exists rows, render_polygons_tab polygons = Normal rows)
   <-> Forall (fun p => Polygon.value p <> null) polygons)
  /\ Forall (fun p => popup_value p = Normal (popup_text p)) polygons.
Proof.
  split.
  - unfold render_polygons_tab.
    induction polygons as [|p polygons IH]; simpl.
    + split; [constructor | now eexists].
    + unfold panel_value_row at 1.
      destruct (Polygon.value p) eqn:Hv; simpl.
      * destruct (map_all panel_value_row polygons) as [rows|e]; simpl.
        -- split; [|now eexists].
           intros _. constructor; [congruence|]. apply IH. now eexists.
        -- split; [now intros [rows H]|].
           intros H. inversion H as [|? ? _ Hrest]; subst.
           apply IH in Hrest. destruct Hrest as [rows Hrows]. discriminate.
      * split; [now intros [rows H]|].
        intros H. inversion H; subst. congruence.
      * destruct (map_all panel_value_row polygons) as [rows|e]; simpl.
        -- split; [|now eexists].
           intros _. constructor; [congruence|]. apply IH. now eexists.
        -- split; [now intros [rows H]|].
           intros H. inversion H as [|? ? _ Hrest]; subst.
           apply IH in Hrest. destruct Hrest as [rows Hrows]. discriminate.
  - apply Forall_forall. intros p _. unfold popup_value, popup_text.
    now destruct (Polygon.value p).
Qed.

(** ** Further compositions *)

Lemma clicks_points (points : list coord) (a : App.t) :
  Dashboard.isDrawing (App.dashboard a) = true ->
  List.length (Drawing.drawingPoints (App.map a)) <= 12 ->
  Drawing.drawingPoints (App.map (clicks points a))
  = firstn 12 (Drawing.drawingPoints (App.map a) ++ points)
  /\ App.dashboard (clicks points a) = App.dashboard a.
Proof.
  revert a. induction points as [|p points IH]; intros a Hon Hlen.
  - change (clicks [] a) with a. rewrite app_nil_r. split; trivial.
    symmetry. apply firstn_all2. exact Hlen.
  - change (clicks (p :: points) a) with (clicks points (click p a)).
    assert (Hon' : Dashboard.isDrawing (App.dashboard (click p a)) = true)
      by exact Hon.
    destruct (Nat.eq_dec (List.length (Drawing.drawingPoints (App.map a))) 12)
      as [Hfull|Hroom].
    + assert (E : click p a = a).
      { destruct a as [s d]. unfold click; simpl in *.
        rewrite handleMapClick_full by lia. reflexivity. }
      rewrite E. destruct (IH a Hon Hlen) as [IHp IHd]. split; [|exact IHd].
      rewrite IHp.
      rewrite !firstn_app, Hfull, Nat.sub_diag. reflexivity.
    + assert (E : Drawing.drawingPoints (App.map (click p a))
                  = Drawing.drawingPoints (App.map a) ++ [p]).
      { unfold click, handleMapClick; cbn [App.map]. rewrite Hon; cbn [negb].
        rewrite length_app; cbn [List.length].
        destruct (Nat.ltb_spec 12
                    (List.length (Drawing.drawingPoints (App.map a)) + 1));
          [lia|reflexivity]. }
      destruct (IH (click p a) Hon') as [IHp IHd].
      { rewrite E, length_app. cbn [List.length]. lia. }
      split; [|exact IHd].
      rewrite IHp, E, <- app_assoc. reflexivity.
Qed.

(** X21. In a fresh session with drawing on, any number of clicks leaves the
    session holding the first 12 clicked points, in click order, and leaves
    the dashboard as it was. *)
Theorem clicks_keep_the_first_twelve (points : list coord) (a : App.t) :
  Dashboard.isDrawing (App.dashboard a) = true ->
  App.map a = cleared ->
  Drawing.drawingPoints (App.map (clicks points a)) = firstn 12 points
  /\ App.dashboard (clicks points a) = App.dashboard a.
Proof.
  intros Hon Hfresh.
  destruct (clicks_points points a Hon) as [Hp Hd].
  - rewrite Hfresh. cbn [cleared Drawing.drawingPoints List.length]. lia.
  - split; [|exact Hd]. rewrite Hp, Hfresh. reflexivity.
Qed.

Lemma clicks_keep_the_first_twelve_witness :
  let a := onStartDrawing (start (TimeRange.mk 0%Z 86400000%Z)) in
  let thirteen : list coord :=
    [ (0, 0); (0, 1); (0, 2); (0, 3); (1, 3); (2, 3); (3, 3);
      (3, 2); (3, 1); (3, 0); (2, 0); (1, 0); (9, 9) ]%Q in
  Dashboard.isDrawing (App.dashboard a) = true
  /\ Drawing.drawingPoints (App.map (clicks thirteen a)) = firstn 12 thirteen.
Proof.
  intros a thirteen. split; [reflexivity|].
  exact (proj1 (clicks_keep_the_first_twelve thirteen a eq_refl eq_refl)).
Defined.

(** X22. Selecting another variable while the collection is not empty
    issues one recompute, and once it resumes every polygon of the
    collection carries the newly selected variable, with the same
    identifiers and coordinates in the same order. *)
Theorem selecting_a_variable_rederives_all fetch (dataSourceId : string)
    (s : Dashboard.t) :
  dataSourceId <> Dashboard.selectedDataSource s ->
  Dashboard.polygons s <> [] ->
  let issued := onDataSourceChange dataSourceId s in
  let s' := resolve fetch (List.length (Dashboard.inflight s)) issued in
  Dashboard.inflight issued
  = Dashboard.inflight s
      ++ [recompute (Dashboard.polygons s) dataSourceId (Dashboard.timeRange s)]
  /\ Dashboard.inflight s' = Dashboard.inflight s
  /\ Dashboard.selectedDataSource s' = dataSourceId
  /\ Forall (fun p => Polygon.dataSource p = dataSourceId) (Dashboard.polygons s')
  /\ map Polygon.id (Dashboard.polygons s') = map Polygon.id (Dashboard.polygons s)
  /\ map Polygon.coordinates (Dashboard.polygons s')
     = map Polygon.coordinates (Dashboard.polygons s).
Proof.
  intros Hother Hne issued s'.
  assert (E : issued
              = Dashboard.mk (Dashboard.polygons s) (Dashboard.isDrawing s)
                  dataSourceId (Dashboard.timeRange s)
                  (Dashboard.inflight s
                     ++ [recompute (Dashboard.polygons s) dataSourceId
                           (Dashboard.timeRange s)])).
  { unfold issued, onDataSourceChange.
    destruct (String.eqb_spec dataSourceId (Dashboard.selectedDataSource s));
      [contradiction|].
    unfold recompute_effect. simpl.
    destruct (Dashboard.polygons s); [congruence|reflexivity]. }
  destruct (resolve_recompute fetch (List.length (Dashboard.inflight s)) issued
              (Dashboard.polygons s) dataSourceId (Dashboard.timeRange s))
    as (_ & Hd & Hfl).
  { rewrite E. simpl. apply nth_error_snoc. }
  fold s' in Hd, Hfl.
  destruct (resolve_frame fetch (List.length (Dashboard.inflight s)) issued)
    as (_ & Hsel & _).
  fold s' in Hsel.
  destruct (refreshed_keeps_identity _ _ _ _ _ Hd) as [Hid Hco].
  split; [now rewrite E|]. split; [|split; [|split; [|split]]]; trivial.
  - rewrite Hfl, E. simpl.
    clear. induction (Dashboard.inflight s) as [|t fl IH]; simpl; trivial.
    now rewrite IH.
  - now rewrite Hsel, E.
  - clear -Hd. induction Hd as [|p p' ? ? (_ & _ & Hds & _) _ IH];
      constructor; trivial.
Qed.

Lemma selecting_a_variable_rederives_all_witness :
  let s := handlePolygonComplete 1700000000000%Z [(0, 0); (0, 2); (2, 2)]%Q
             (initial (TimeRange.mk 0%Z 86400000%Z)) in
  "precipitation" <> Dashboard.selectedDataSource s
  /\ Dashboard.polygons s <> []
  /\ Forall (fun p => Polygon.dataSource p = "precipitation")
       (Dashboard.polygons
          (resolve steady_source 1 (onDataSourceChange "precipitation" s))).
Proof.
  intros s.
  assert (H1 : "precipitation" <> Dashboard.selectedDataSource s)
    by discriminate.
  assert (H2 : Dashboard.polygons s <> []) by discriminate.
  split; [exact H1|]. split; [exact H2|].
  destruct (selecting_a_variable_rederives_all steady_source "precipitation" s
              H1 H2) as (_ & _ & _ & Hall & _).
  exact Hall.
Defined.
